(** * A nutrition record store kept in a CSV file: [main.py]

    A shallow embedding of [FoodData] and [DataManager] (src/main.py) and of
    the parts of CPython's [csv] module the two persistence methods call,
    followed by the properties of the store's operations.

    Conventions.
    - A Python [str] is a Rocq [string]; inside the [csv] layer, where text is
      taken apart character by character, it is a [list ascii].
    - A Python [float] is a binary64 value, Rocq's primitive [float]; [==] on
      floats is IEEE equality ([PrimFloat.eqb]).
    - A method is a state transformer over the receiver's attributes and the
      file system; an exception is a [Raise] result and leaves the state as it
      is at the point where it is raised.
    - Console output ([print], [print_data]) is not part of the state. *)

From Stdlib Require Import ZArith String Ascii List Floats DecimalString Uint63.
From stdpp Require Import gmap strings list.

(** ** Python values *)

(** The values the program stores in a record or passes to the store: text
    (from [input()] and from the CSV reader), floats (from [float(input())])
    and [None] (what [csv.DictReader] gives for a cell missing from a short
    row). *)
Inductive pyval :=
  | PNone
  | PStr (s : string)
  | PFloat (x : float).

(** What an attribute lookup can return: a plain value, or some other object
    (a method, a class, a dict) that equals no plain value and that [float()]
    rejects. *)
Inductive pyobj :=
  | Plain (v : pyval)
  | Opaque.

Inductive exn :=
  | FileNotFoundError
  | CsvError
  | TypeError
  | ValueError
  | AttributeError
  | StatisticsError.

Inductive result (A : Type) :=
  | Ok (a : A)
  | Raise (e : exn).
Arguments Ok {A} a.
Arguments Raise {A} e.

Global Instance result_ret : MRet result := λ A a, Ok a.
Global Instance result_bind : MBind result := λ A B k r,
  match r with
  | Ok a => k a
  | Raise e => Raise e
  end.

(** [[f(x) for x in l]] for an [f] that may raise: elements are evaluated in
    order and the first exception ends the comprehension. *)
Fixpoint comprehension {A B} (f : A → result B) (l : list A) : result (list B) :=
  match l with
  | [] => Ok []
  | x :: l' => y ← f x; ys ← comprehension f l'; Ok (y :: ys)
  end.

(** ** The Python runtime outside the repository

    What the program calls but does not define, and what no property below
    depends on: the decimal rendering and parsing of floats, attribute lookup
    on the class once the instance dictionary has no entry, and the arithmetic
    of [statistics.mean] and [statistics.median] on a non-empty sample. *)
Class Runtime := {
  (** [repr(x)] of a float, which is also [str(x)] *)
  float_repr : float → string;
  (** [float(s)] of a string; [None] is a [ValueError] *)
  float_of_str : string → option float;
  (** lookup of a name on the class [FoodData] and its base [object];
      [None] is an [AttributeError] *)
  class_attr : string → option pyobj;
  (** [statistics.mean] and [statistics.median] of a non-empty list *)
  mean_of : list float → float;
  median_of : list float → float;
}.

(** ** Characters and text *)

Definition CR : ascii := "013"%char.
Definition LF : ascii := "010"%char.
Definition DQUOTE : ascii := "034"%char.
Definition COMMA : ascii := ","%char.

Definition text := list ascii.

Definition str_of (t : text) : string := string_of_list_ascii t.
Definition text_of (s : string) : text := list_ascii_of_string s.

(** ** [class FoodData] *)

Record FoodData := mkFoodData {
  food_item : pyval;
  calories : pyval;
  protein : pyval;
  carbs : pyval;
}.

(** [x == y] on plain values: text with text, float with float (IEEE, so a
    NaN equals nothing), [None] with [None]; values of different types are
    never equal. *)
Definition py_eq (x y : pyval) : bool :=
  match x, y with
  | PNone, PNone => true
  | PStr s, PStr t => String.eqb s t
  | PFloat a, PFloat b => PrimFloat.eqb a b
  | _, _ => false
  end.

Definition obj_eq (o : pyobj) (y : pyval) : bool :=
  match o with
  | Plain x => py_eq x y
  | Opaque => false
  end.

Section Values.
Context {RT : Runtime}.

(** [getattr(item, name)]: the four instance attributes set by [__init__],
    otherwise the lookup goes to the class. *)
Definition getattr (item : FoodData) (name : string) : result pyobj :=
  if String.eqb name "food_item" then Ok (Plain (food_item item))
  else if String.eqb name "calories" then Ok (Plain (calories item))
  else if String.eqb name "protein" then Ok (Plain (protein item))
  else if String.eqb name "carbs" then Ok (Plain (carbs item))
  else match class_attr name with
       | Some o => Ok o
       | None => Raise AttributeError
       end.

(** [float(o)] *)
Definition py_float (o : pyobj) : result float :=
  match o with
  | Plain (PFloat x) => Ok x
  | Plain (PStr s) =>
      match float_of_str s with
      | Some x => Ok x
      | None => Raise ValueError
      end
  | Plain PNone => Raise TypeError
  | Opaque => Raise TypeError
  end.

(** The text [csv.writer] writes for a cell: [None] is the empty string, a
    string is itself, anything else goes through [str()]. *)
Definition cell_str (v : pyval) : string :=
  match v with
  | PNone => ""
  | PStr s => s
  | PFloat x => float_repr x
  end.

(** [statistics.mean(values)], [statistics.median(values)] *)
Definition statistics_mean (values : list float) : result float :=
  match values with
  | [] => Raise StatisticsError
  | _ => Ok (mean_of values)
  end.

Definition statistics_median (values : list float) : result float :=
  match values with
  | [] => Raise StatisticsError
  | _ => Ok (median_of values)
  end.

End Values.

(** ** The [csv] module, [excel] dialect

    delimiter comma, quotechar the double quote, doublequote, no escapechar,
    not strict, QUOTE_MINIMAL, lineterminator CR LF (CPython 3.11, Modules/_csv.c and
    Lib/csv.py). *)
Module Csv.

(** *** Writer *)

(** A character that makes [join_append_data] quote the field: the delimiter,
    the quote character, or a character of the line terminator. *)
Definition special (c : ascii) : bool :=
  Ascii.eqb c COMMA || Ascii.eqb c DQUOTE || Ascii.eqb c CR || Ascii.eqb c LF.

(** The field's characters with every quote character doubled. *)
Definition doubled (s : text) : text :=
  flat_map (λ c, if Ascii.eqb c DQUOTE then [DQUOTE; DQUOTE] else [c]) s.

Definition join_append (s : text) : text :=
  if existsb special s then DQUOTE :: doubled s ++ [DQUOTE] else s.

Fixpoint join_fields (fs : list text) : text :=
  match fs with
  | [] => []
  | [f] => join_append f
  | f :: rest => join_append f ++ COMMA :: join_fields rest
  end.

(** [writer.writerow(cells)] on cells already turned into text: a record that
    is one empty field is written as a pair of quotes, and every record ends
    with the line terminator. *)
Definition writerow (cells : list text) : text :=
  let rec := join_fields cells in
  match cells, rec with
  | _ :: _, [] => [DQUOTE; DQUOTE; CR; LF]
  | _, _ => rec ++ [CR; LF]
  end.

(** *** Reader *)

(** The parser states the excel dialect can reach (the three escape states
    need an escapechar). *)
Inductive ParserState :=
  | START_RECORD
  | START_FIELD
  | IN_FIELD
  | IN_QUOTED_FIELD
  | QUOTE_IN_QUOTED_FIELD
  | EAT_CRNL.

Record Reader := mkReader {
  state : ParserState;
  field : text;          (* the field being read *)
  fields : list text;    (* the fields of the record read so far *)
}.

(** [csv.field_size_limit()] *)
Definition field_limit : Z := 131072.

Definition parse_reset : Reader := mkReader START_RECORD [] [].

Definition parse_add_char (r : Reader) (c : ascii) : result Reader :=
  if (field_limit <=? Z.of_nat (length (field r)))%Z then Raise CsvError
  else Ok (mkReader (state r) (field r ++ [c]) (fields r)).

Definition parse_save_field (r : Reader) : Reader :=
  mkReader (state r) [] (fields r ++ [field r]).

Definition set_state (r : Reader) (st : ParserState) : Reader :=
  mkReader st (field r) (fields r).

(** What [parse_process_char] is given: a character of the line, or the
    end-of-line mark that follows the last character of every line. *)
Inductive pchar :=
  | Chr (c : ascii)
  | EOL.

Definition is_newline (c : pchar) : bool :=
  match c with
  | Chr a => Ascii.eqb a LF || Ascii.eqb a CR
  | EOL => false
  end.

Definition start_field (r : Reader) (c : pchar) : result Reader :=
  match c with
  | EOL => Ok (set_state (parse_save_field r) START_RECORD)
  | Chr a =>
      if is_newline c then Ok (set_state (parse_save_field r) EAT_CRNL)
      else if Ascii.eqb a DQUOTE then Ok (set_state r IN_QUOTED_FIELD)
      else if Ascii.eqb a COMMA then Ok (set_state (parse_save_field r) START_FIELD)
      else r' ← parse_add_char r a; Ok (set_state r' IN_FIELD)
  end.

Definition parse_process_char (r : Reader) (c : pchar) : result Reader :=
  match state r with
  | START_RECORD =>
      match c with
      | EOL => Ok r
      | Chr _ =>
          if is_newline c then Ok (set_state r EAT_CRNL)
          else start_field r c
      end
  | START_FIELD => start_field r c
  | IN_FIELD =>
      match c with
      | EOL => Ok (set_state (parse_save_field r) START_RECORD)
      | Chr a =>
          if is_newline c then Ok (set_state (parse_save_field r) EAT_CRNL)
          else if Ascii.eqb a COMMA then Ok (set_state (parse_save_field r) START_FIELD)
          else parse_add_char r a
      end
  | IN_QUOTED_FIELD =>
      match c with
      | EOL => Ok r
      | Chr a =>
          if Ascii.eqb a DQUOTE then Ok (set_state r QUOTE_IN_QUOTED_FIELD)
          else parse_add_char r a
      end
  | QUOTE_IN_QUOTED_FIELD =>
      match c with
      | EOL => Ok (set_state (parse_save_field r) START_RECORD)
      | Chr a =>
          if Ascii.eqb a DQUOTE then
            r' ← parse_add_char r a; Ok (set_state r' IN_QUOTED_FIELD)
          else if Ascii.eqb a COMMA then Ok (set_state (parse_save_field r) START_FIELD)
          else if is_newline c then Ok (set_state (parse_save_field r) EAT_CRNL)
          else r' ← parse_add_char r a; Ok (set_state r' IN_FIELD)
      end
  | EAT_CRNL =>
      match c with
      | EOL => Ok (set_state r START_RECORD)
      | Chr _ => if is_newline c then Ok r else Raise CsvError
      end
  end.

Fixpoint parse_chars (r : Reader) (cs : list pchar) : result Reader :=
  match cs with
  | [] => Ok r
  | c :: cs' => r' ← parse_process_char r c; parse_chars r' cs'
  end.

(** One line of input: its characters, then the end-of-line mark. *)
Definition parse_line (r : Reader) (line : text) : result Reader :=
  parse_chars r (map Chr line ++ [EOL]).

Definition is_start_record (st : ParserState) : bool :=
  match st with START_RECORD => true | _ => false end.

Definition is_in_quoted_field (st : ParserState) : bool :=
  match st with IN_QUOTED_FIELD => true | _ => false end.

(** What iterating over a reader gives: the rows it yields, in order, and the
    exception that ends the iteration, if one does. *)
Definition rows := (list (list text) * option exn)%type.

(** The rows [rs] after the row [row]. *)
Definition yield (row : list text) (rs : rows) : rows := (row :: rs.1, rs.2).

(** The end of the input: an unfinished record is yielded if it has a
    non-empty field or an open quote. *)
Definition at_end (r : Reader) : rows :=
  if negb (bool_decide (field r = [])) || is_in_quoted_field (state r)
  then ([fields (parse_save_field r)], None)
  else ([], None).

(** Iteration of [csv.reader] over the lines of the input ([Reader_iternext]
    called until it stops). A record is complete when a line ends with the
    parser back in [START_RECORD]; the next record starts from a parser that
    has been reset. *)
Fixpoint reader (r : Reader) (lines : list text) : rows :=
  match lines with
  | [] => at_end r
  | line :: rest =>
      match parse_line r line with
      | Raise e => ([], Some e)
      | Ok r' =>
          if is_start_record (state r')
          then yield (fields r') (reader parse_reset rest)
          else reader r' rest
      end
  end.

(** *** Text files *)

(** Reading a file opened with [open(name, 'r')]: universal newlines turn
    CR LF and a lone CR into LF. *)
Fixpoint universal_newlines (t : text) : text :=
  match t with
  | [] => []
  | c :: t' =>
      if Ascii.eqb c CR then
        match t' with
        | d :: t'' => if Ascii.eqb d LF then LF :: universal_newlines t''
                      else LF :: universal_newlines t'
        | [] => [LF]
        end
      else c :: universal_newlines t'
  end.

(** Iterating over the file object: lines, each with its LF, the last one
    possibly without. [cur] is the line read so far. *)
Fixpoint readlines (cur : text) (t : text) : list text :=
  match t with
  | [] => match cur with [] => [] | _ => [cur] end
  | c :: t' =>
      if Ascii.eqb c LF then (cur ++ [c]) :: readlines [] t'
      else readlines (cur ++ [c]) t'
  end.

(** *** DictReader *)

(** A row as [DictReader] yields it: the cells under the field names, [None]
    under the names a short row has no cell for, and the cells a long row has
    beyond the names under the key [None] ([restkey]). *)
Record rowdict := mkRowdict {
  named : gmap string pyval;
  rest : option (list text);
}.

(** [dict(pairs)]: a later pair overrides an earlier one with the same key. *)
Definition dict (pairs : list (string * pyval)) : gmap string pyval :=
  fold_left (λ m kv, <[kv.1 := kv.2]> m) pairs ∅.

Definition to_dict (fieldnames : list text) (row : list text) : rowdict :=
  let d := dict (zip (map str_of fieldnames) (map (λ c, PStr (str_of c)) row)) in
  let lf := length fieldnames in
  let lr := length row in
  if lf <? lr then mkRowdict d (Some (drop lf row))
  else mkRowdict
         (fold_left (λ m k, <[str_of k := PNone]> m) (drop lr fieldnames) d)
         None.

(** The rows that are not empty. *)
Definition nonblank (body : list (list text)) : list (list text) :=
  List.filter (λ row, negb (bool_decide (row = []))) body.

(** Iteration of [csv.DictReader]: the first row the reader yields is the
    list of field names; every later row that is not empty becomes a dict. *)
Definition DictReader (rs : rows) : list rowdict * option exn :=
  match rs.1 with
  | [] => ([], rs.2)
  | fieldnames :: body => (map (to_dict fieldnames) (nonblank body), rs.2)
  end.

(** *** The reader on a whole text

    The same iteration, seen from the text instead of its lines; the facts
    about reading a written file are proved on this view. *)

(** The reader as it sees a whole text: every character in turn, an
    end-of-line mark after every LF and after a last line that has none. *)
Fixpoint text_events (midline : bool) (t : text) : list pchar :=
  match t with
  | [] => if midline then [EOL] else []
  | c :: t' =>
      Chr c :: if Ascii.eqb c LF then EOL :: text_events false t'
               else text_events true t'
  end.

(** A record is complete at an end-of-line mark that leaves the parser in
    [START_RECORD]. *)
Definition completes (c : pchar) (r : Reader) : bool :=
  match c with
  | EOL => is_start_record (state r)
  | Chr _ => false
  end.

Fixpoint read_events (r : Reader) (cs : list pchar) : rows :=
  match cs with
  | [] => at_end r
  | c :: cs' =>
      match parse_process_char r c with
      | Raise e => ([], Some e)
      | Ok r' =>
          if completes c r' then yield (fields r') (read_events parse_reset cs')
          else read_events r' cs'
      end
  end.

(** Characters read with no error and no record completed. *)
Fixpoint within_record (r : Reader) (cs : list pchar) : option Reader :=
  match cs with
  | [] => Some r
  | c :: cs' =>
      match parse_process_char r c with
      | Raise _ => None
      | Ok r' => if completes c r' then None else within_record r' cs'
      end
  end.

(** The characters of a field inside a record, with their end-of-line marks. *)
Definition marked (t : text) : list pchar :=
  flat_map (λ c, if Ascii.eqb c LF then [Chr c; EOL] else [Chr c]) t.

(** A field the reader can hold. *)
Definition fits (s : text) : Prop := (Z.of_nat (length s) ≤ field_limit)%Z.

(** The states a field that has been read leaves the parser in. *)
Definition after_field (st : ParserState) : Prop :=
  st = START_FIELD ∨ st = IN_FIELD ∨ st = QUOTE_IN_QUOTED_FIELD.

(** A record of at least two fields. *)
Definition wide (cells : list text) : Prop := 1 < length cells.

(** A cell that survives the round trip through a file: short enough for the
    reader, and free of carriage returns, which universal newlines would turn
    into line feeds. *)
Definition portable (s : text) : Prop := fits s ∧ CR ∉ s.

Global Instance portable_dec (s : text) : Decision (portable s).
Proof. unfold portable, fits. apply _. Defined.

End Csv.

(** ** [class DataManager] *)

(** The attributes of the instance. *)
Record DataManager := mkDataManager {
  data : list FoodData;
  filename : string;
}.

(** What a method runs on: the receiver's attributes and the files on disk,
    by name. A file can always be (over)written. *)
Record Store := mkStore {
  self : DataManager;
  disk : gmap string text;
}.

(** A method body: it returns a value or raises, and leaves a state. *)
Definition Py (A : Type) : Type := Store → result A * Store.

Global Instance Py_ret : MRet Py := λ A a s, (Ok a, s).
Global Instance Py_bind : MBind Py := λ A B k m s,
  match m s with
  | (Ok a, s') => k a s'
  | (Raise e, s') => (Raise e, s')
  end.

(** A computation that touches no state. *)
Definition pure {A} (r : result A) : Py A := λ s, (r, s).

(** [self.data], [self.data = d] *)
Definition get_data : Py (list FoodData) := λ s, (Ok (data (self s)), s).
Definition set_data (d : list FoodData) : Py unit := λ s,
  (Ok tt, mkStore (mkDataManager d (filename (self s))) (disk s)).

(** [open(self.filename, 'r')] read to its end *)
Definition read_file : Py text := λ s,
  match disk s !! filename (self s) with
  | Some t => (Ok (Csv.universal_newlines t), s)
  | None => (Raise FileNotFoundError, s)
  end.

(** [open(self.filename, 'w', newline='')] with [t] written to it *)
Definition write_file (t : text) : Py unit := λ s,
  (Ok tt, mkStore (self s) (<[filename (self s) := t]> (disk s))).

(** [[x for x in l if p(x)]] for a condition that may raise. *)
Fixpoint comprehension_if {A} (p : A → result bool) (l : list A) : result (list A) :=
  match l with
  | [] => Ok []
  | x :: l' =>
      b ← p x; xs ← comprehension_if p l'; Ok (if b : bool then x :: xs else xs)
  end.

(** [FoodData] called with the row's entries as keyword arguments: the
    keywords must be strings and must be exactly the four parameters of
    [__init__]; anything else is a [TypeError]. *)
Definition FoodData_kwargs (row : Csv.rowdict) : result FoodData :=
  match Csv.rest row with
  | Some _ => Raise TypeError
  | None =>
      let d := Csv.named row in
      match d !! "food_item", d !! "calories", d !! "protein", d !! "carbs" with
      | Some f, Some c, Some p, Some b =>
          if bool_decide (dom d = {["food_item"; "calories"; "protein"; "carbs"]} :> gset string)
          then Ok (mkFoodData f c p b)
          else Raise TypeError
      | _, _, _, _ => Raise TypeError
      end
  end.

(** The comprehension of [read_data]: a [FoodData] from every row of
    [csv.DictReader(file)]. *)
Definition load_rows (lines : list text) : result (list FoodData) :=
  let '(dicts, ending) := Csv.DictReader (Csv.reader Csv.parse_reset lines) in
  items ← comprehension FoodData_kwargs dicts;
  match ending with
  | Some e => Raise e
  | None => Ok items
  end.

Definition header : list text :=
  map text_of ["food_item"; "calories"; "protein"; "carbs"].

Section Methods.
Context {RT : Runtime}.

Definition read_data : Py unit :=
  file ← read_file;
  items ← pure (load_rows (Csv.readlines [] file));
  set_data items.

(** The cells [save_data] writes for a record, as text. *)
Definition cells (item : FoodData) : list text :=
  map (λ v, text_of (cell_str v))
      [food_item item; calories item; protein item; carbs item].

(** The whole file [save_data] writes: the header row, then one row per
    record. *)
Definition table (items : list FoodData) : text :=
  Csv.writerow header ++ concat (map (λ item, Csv.writerow (cells item)) items).

Definition save_data : Py unit :=
  items ← get_data;
  write_file (table items).

Definition add_data (food_item calories protein carbs : pyval) : Py unit :=
  let new_food := mkFoodData food_item calories protein carbs in
  items ← get_data;
  _ ← set_data (items ++ [new_food]);
  save_data.

Definition edit_data (index : Z) (food_item calories protein carbs : pyval) : Py unit :=
  items ← get_data;
  if bool_decide (0 ≤ index < Z.of_nat (length items))%Z then
    _ ← set_data (<[Z.to_nat index := mkFoodData food_item calories protein carbs]> items);
    save_data
  else mret tt.

Definition delete_data (index : Z) : Py unit :=
  items ← get_data;
  if bool_decide (0 ≤ index < Z.of_nat (length items))%Z then
    _ ← set_data (delete (Z.to_nat index) items);
    save_data
  else mret tt.

(** [[float(getattr(item, field)) for item in self.data]] *)
Definition field_values (field : string) (items : list FoodData) : result (list float) :=
  comprehension (λ item, o ← getattr item field; py_float o) items.

Definition calculate_mean (field : string) : Py float :=
  items ← get_data;
  values ← pure (field_values field items);
  pure (statistics_mean values).

Definition calculate_median (field : string) : Py float :=
  items ← get_data;
  values ← pure (field_values field items);
  pure (statistics_median values).

(** [[item for item in self.data if getattr(item, field) == value]] *)
Definition matching (field : string) (value : pyval) (items : list FoodData)
  : result (list FoodData) :=
  comprehension_if (λ item, o ← getattr item field; Ok (obj_eq o value)) items.

Definition filter_data (field : string) (value : pyval) : Py (list FoodData) :=
  items ← get_data;
  pure (matching field value items).

End Methods.

(** ** Construction: [DataManager.__new__]

    Objects live in a heap and are known by their index in it; the class
    attribute [_instance] holds the one instance once it exists. *)
Record World := mkWorld {
  heap : list DataManager;
  _instance : option nat;
  files : gmap string text;
}.

(** [DataManager()]: [__new__], then [object.__init__], which does nothing. *)
Definition DataManager_new (w : World) : nat * World :=
  match _instance w with
  | None =>
      let ref := length (heap w) in
      (ref, mkWorld (heap w ++ [mkDataManager [] "food_nutrition.csv"])
                    (Some ref) (files w))
  | Some ref => (ref, w)
  end.

(** A method called on the object a reference names: it runs on that object's
    attributes and leaves them in the object. [None] when nothing lives at
    the reference. *)
Definition call {A} (ref : nat) (m : Py A) (w : World) : option (result A * World) :=
  dm ← heap w !! ref;
  let '(r, s) := m (mkStore dm (files w)) in
  Some (r, mkWorld (<[ref := self s]> (heap w)) (_instance w) (disk s)).

(** The attributes of the object at a reference. *)
Definition attrs (w : World) (ref : nat) : option DataManager := heap w !! ref.

(** What a program can do to a world: call a method on a reference, or
    construct a [DataManager] again. *)
Inductive steps : World → World → Prop :=
  | steps_done w : steps w w
  | steps_call {A} w ref (body : Py A) r w' w'' :
      call ref body w = Some (r, w') → steps w' w'' → steps w w''
  | steps_new w w'' :
      steps (DataManager_new w).2 w'' → steps w w''.

(** ** A runtime for closed examples

    An instance of [Runtime] on which the examples below are evaluated. It
    agrees with CPython where the examples go:
    - [float_repr] prints the exact decimal expansion of the float, which is
      CPython's [repr] whenever that expansion has at most 15 significant
      digits and the value lies between 1e-4 and 1e16 (95.0, 0.5, 200.0);
    - [float_of_str] reads a plain decimal numeral (an optional minus sign,
      digits, an optional point and digits) of at most 15 digits, and takes
      anything else for a [ValueError];
    - [class_attr] knows the attributes an instance of a plain class inherits;
    - [mean_of] and [median_of] are the textbook formulas in float
      arithmetic. *)
Module Demo.

Definition digits (n : Z) : string := NilZero.string_of_uint (N.to_uint (Z.to_N n)).

Fixpoint zeros (k : nat) : string :=
  match k with
  | O => ""
  | S k' => String "0" (zeros k')
  end.

Fixpoint dropwhile {A} (p : A → bool) (l : list A) : list A :=
  match l with
  | x :: l' => if p x then dropwhile p l' else l
  | [] => []
  end.

Fixpoint takewhile {A} (p : A → bool) (l : list A) : list A :=
  match l with
  | x :: l' => if p x then x :: takewhile p l' else []
  | [] => []
  end.

Definition strip_zeros (s : string) : string :=
  match dropwhile (λ c, bool_decide (c = "0"%char)) (rev (text_of s)) with
  | [] => "0"
  | t => str_of (rev t)
  end.

(** The decimal expansion of [m * 2^e]. *)
Definition expansion (m : positive) (e : Z) : string :=
  if (0 <=? e)%Z then digits (Z.pos m * 2 ^ e) +:+ ".0"
  else
    let k := Z.to_nat (- e) in
    let n := (Z.pos m * 5 ^ (- e))%Z in
    let frac := digits (n mod 10 ^ (- e)) in
    digits (n / 10 ^ (- e)) +:+ "." +:+
    strip_zeros (zeros (k - String.length frac) +:+ frac).

Definition float_repr (x : float) : string :=
  match Prim2SF x with
  | S754_zero s => if s then "-0.0" else "0.0"
  | S754_infinity s => if s then "-inf" else "inf"
  | S754_nan => "nan"
  | S754_finite s m e => (if s then "-" else "") +:+ expansion m e
  end.

Definition split_point (s : text) : text * text :=
  (takewhile (λ c, negb (Ascii.eqb c ".")) s,
   tail (dropwhile (λ c, negb (Ascii.eqb c ".")) s)).

Definition float_of_Z (n : Z) : float := PrimFloat.of_uint63 (Uint63.of_Z n).

Definition unsigned_of_str (s : text) : option float :=
  let '(ip, fp) := split_point s in
  match NilEmpty.uint_of_string (str_of (ip ++ fp)) with
  | Some u =>
      if bool_decide (0 < length (ip ++ fp) ≤ 15)
      then Some (float_of_Z (Z.of_uint u) / float_of_Z (10 ^ Z.of_nat (length fp)))%float
      else None
  | None => None
  end.

Definition float_of_str (s : string) : option float :=
  match text_of s with
  | c :: t =>
      if Ascii.eqb c "-" then PrimFloat.opp <$> unsigned_of_str t
      else unsigned_of_str (c :: t)
  | [] => None
  end.

(** The docstring of [FoodData], line by line. *)
Definition FoodData_doc : string :=
  str_of (concat (map (λ l, LF :: text_of l)
    ["    Represents a single food item with its nutritional values.";
     "";
     "    Attributes:";
     "        food_item (str): The name of the food item.";
     "        calories (float): Caloric content of the food item.";
     "        protein (float): Protein content of the food item.";
     "        carbs (float): Carbohydrate content of the food item.";
     "    "])).

Definition class_attr (name : string) : option pyobj :=
  if bool_decide (name = "__doc__") then Some (Plain (PStr FoodData_doc))
  else if bool_decide (name = "__module__") then Some (Plain (PStr "__main__"))
  else if bool_decide (name ∈
    ["__class__"; "__delattr__"; "__dict__"; "__dir__"; "__eq__"; "__format__";
     "__ge__"; "__getattribute__"; "__getstate__"; "__gt__"; "__hash__";
     "__init__"; "__init_subclass__"; "__le__"; "__lt__"; "__ne__"; "__new__";
     "__reduce__"; "__reduce_ex__"; "__repr__"; "__setattr__"; "__sizeof__";
     "__str__"; "__subclasshook__"; "__weakref__"])
  then Some Opaque
  else None.

Definition mean_of (values : list float) : float :=
  (foldr PrimFloat.add 0 values / float_of_Z (Z.of_nat (length values)))%float.

Fixpoint insert_sorted (x : float) (l : list float) : list float :=
  match l with
  | [] => [x]
  | y :: l' => if PrimFloat.leb x y then x :: l else y :: insert_sorted x l'
  end.

Definition median_of (values : list float) : float :=
  let sorted := foldr insert_sorted [] values in
  let n := length sorted in
  if Nat.even n
  then ((nth (n / 2 - 1) sorted 0 + nth (n / 2) sorted 0) / 2)%float
  else nth (n / 2) sorted 0%float.

Definition runtime : Runtime :=
  Build_Runtime float_repr float_of_str class_attr mean_of median_of.

End Demo.

(** * What the statements speak of *)

(** ** Rows into records *)

(** The value [DictReader] gives for the [i]th name: the cell as text, or
    [None] when the row has no such cell. *)
Definition cell_value (row : list text) (i : nat) : pyval :=
  match row !! i with
  | Some c => PStr (str_of c)
  | None => PNone
  end.

(** The record a row of at most four cells becomes under the header
    [save_data] writes. *)
Definition record_of_row (row : list text) : FoodData :=
  mkFoodData (cell_value row 0) (cell_value row 1) (cell_value row 2) (cell_value row 3).

Section Views.
Context {RT : Runtime}.

(** A name that is neither one of the four instance attributes nor known to
    the class. *)
Definition unknown_attribute (name : string) : Prop :=
  (name ∉ ["food_item"; "calories"; "protein"; "carbs"]) ∧ (class_attr name = None).

(** A record as it comes back from the file: every field is the text that
    was written for it. *)
Definition as_text (item : FoodData) : FoodData :=
  mkFoodData (PStr (cell_str (food_item item))) (PStr (cell_str (calories item)))
             (PStr (cell_str (protein item))) (PStr (cell_str (carbs item))).

(** A value whose written form survives the file. *)
Definition writable (v : pyval) : Prop := Csv.portable (text_of (cell_str v)).

Definition writable_record (item : FoodData) : Prop :=
  writable (food_item item) ∧ writable (calories item) ∧
  writable (protein item) ∧ writable (carbs item).

Global Instance writable_record_dec (item : FoodData) : Decision (writable_record item).
Proof. unfold writable_record, writable. apply _. Defined.

End Views.

(** A value that is text already, and survives the file. *)
Definition is_text (v : pyval) : Prop :=
  match v with
  | PStr t => Csv.portable (text_of t)
  | _ => False
  end.

Global Instance is_text_dec (v : pyval) : Decision (is_text v).
Proof. destruct v; simpl; apply _. Defined.

Definition text_record (item : FoodData) : Prop :=
  is_text (food_item item) ∧ is_text (calories item) ∧
  is_text (protein item) ∧ is_text (carbs item).

Global Instance text_record_dec (item : FoodData) : Decision (text_record item).
Proof. unfold text_record. apply _. Defined.

(** ** Closed instances *)

Definition apple : FoodData :=
  mkFoodData (PStr "Apple") (PFloat 95) (PFloat 0.5) (PFloat 25).
Definition rice : FoodData :=
  mkFoodData (PStr "Rice") (PFloat 200) (PFloat 4) (PFloat 45).
Definition bread : FoodData :=
  mkFoodData (PStr "Bread") (PFloat 200) (PFloat 8) (PFloat 40).
Definition pear : FoodData :=
  mkFoodData (PStr "Pear") (PFloat 100) (PFloat 0.5) (PFloat 27).

(** Records as the shell's choice 2 enters them: the name as text, the three
    quantities as floats. *)
Definition pantry : Store :=
  mkStore (mkDataManager [pear; rice; bread] "food_nutrition.csv") ∅.

(** The same records as a load gives them: every field as text. *)
Definition pear_loaded : FoodData :=
  mkFoodData (PStr "Pear") (PStr "100.0") (PStr "0.5") (PStr "27.0").
Definition rice_loaded : FoodData :=
  mkFoodData (PStr "Rice") (PStr "200.0") (PStr "4.0") (PStr "45.0").
Definition bread_loaded : FoodData :=
  mkFoodData (PStr "Bread") (PStr "200.0") (PStr "8.0") (PStr "40.0").

Definition pantry_loaded : Store :=
  mkStore (mkDataManager [pear_loaded; rice_loaded; bread_loaded] "food_nutrition.csv") ∅.

(** A file of the given lines, each ended by CR LF. *)
Definition crlf_lines (ls : list string) : text :=
  concat (map (λ l, text_of l ++ [CR; LF]) ls).

(** A table whose second record has two cells only, the second one not a
    number. *)
Definition short_row_file : text :=
  crlf_lines ["food_item,calories,protein,carbs"; "Pear,100.0,0.5,27.0"; "Apple,abc"].

Definition short_row_store : Store :=
  mkStore (mkDataManager [] "food_nutrition.csv")
          {["food_nutrition.csv" := short_row_file]}.

(** A table whose second record begins with a field of 131073 characters,
    one more than the reader holds. *)
Definition long_field : text := replicate (Z.to_nat 131073) "a"%char.

Definition long_field_file : text :=
  crlf_lines ["food_item,calories,protein,carbs"; "Pear,100.0,0.5,27.0"] ++
  long_field ++ text_of ",1,2,3".

Definition long_field_store : Store :=
  mkStore (mkDataManager [apple] "food_nutrition.csv")
          {["food_nutrition.csv" := long_field_file]}.

(** * The rest of the program *)

(** The instance attributes [FoodData.__init__] sets, by name. *)
Definition attributes : list (string * (FoodData → pyval)) :=
  [("food_item", food_item); ("calories", calories);
   ("protein", protein); ("carbs", carbs)].

Section Sync.
Context {RT : Runtime}.

(** The file of the store holds the table of its records. *)
Definition in_sync (s : Store) : Prop :=
  disk s !! filename (self s) = Some (table (data (self s))).

End Sync.

(** ** [class Application]: the interactive shell *)

(** [int(s)] of a string, the one runtime function the shell calls that the
    store does not; [None] is a [ValueError]. *)
Class Console := {
  int_of_str : string → option Z;
}.

Module Application.

(** What goes to standard output: a line written by [print], or the prompt
    of an [input] call, which ends no line. *)
Inductive write :=
  | Print (line : string)
  | Prompt (prompt : string).

(** A session: the store the application holds (with the disk), the lines
    still to be read from standard input, and what has been written so far. *)
Record Session := mkSession {
  data_manager : Store;
  stdin : list string;
  stdout : list write;
}.

(** How a piece of the shell ends: with a value, or with an exception that
    nothing catches; [EOFError] is what [input] raises at the end of the
    input. *)
Inductive reply (A : Type) :=
  | Value (a : A)
  | Uncaught (e : exn)
  | EOFError.
Arguments Value {A} a.
Arguments Uncaught {A} e.
Arguments EOFError {A}.

Definition Sh (A : Type) : Type := Session → reply A * Session.

Global Instance Sh_ret : MRet Sh := λ A a t, (Value a, t).
Global Instance Sh_bind : MBind Sh := λ A B k m t,
  match m t with
  | (Value a, t') => k a t'
  | (Uncaught e, t') => (Uncaught e, t')
  | (EOFError, t') => (EOFError, t')
  end.

Definition raise {A} (e : exn) : Sh A := λ t, (Uncaught e, t).

(** [print(line)] *)
Definition print (line : string) : Sh unit := λ t,
  (Value tt, mkSession (data_manager t) (stdin t) (stdout t ++ [Print line])).

(** [input(prompt)]: the prompt is written, then a line is read. *)
Definition input (prompt : string) : Sh string := λ t,
  let out := stdout t ++ [Prompt prompt] in
  match stdin t with
  | [] => (EOFError, mkSession (data_manager t) [] out)
  | line :: rest => (Value line, mkSession (data_manager t) rest out)
  end.

(** A method of [self.data_manager] called from the shell. *)
Definition method {A} (m : Py A) : Sh A := λ t,
  let '(r, s) := m (data_manager t) in
  (match r with Ok a => Value a | Raise e => Uncaught e end,
   mkSession s (stdin t) (stdout t)).

Section Loop.
Context {RT : Runtime} {CS : Console}.

(** [float(input(prompt))], [int(input(prompt))] *)
Definition float_input (prompt : string) : Sh float :=
  line ← input prompt;
  match float_of_str line with
  | Some x => mret x
  | None => raise ValueError
  end.

Definition int_input (prompt : string) : Sh Z :=
  line ← input prompt;
  match int_of_str line with
  | Some i => mret i
  | None => raise ValueError
  end.

(** A value inside an f-string: [str()] of it. *)
Definition fmt (v : pyval) : string :=
  match v with
  | PNone => "None"
  | PStr s => s
  | PFloat x => float_repr x
  end.

(** The line printed for a record, by [print_data] and by the filter. *)
Definition record_line (item : FoodData) : string :=
  fmt (food_item item) +:+ ", " +:+ fmt (calories item) +:+ ", " +:+
  fmt (protein item) +:+ ", " +:+ fmt (carbs item).

Fixpoint print_records (items : list FoodData) : Sh unit :=
  match items with
  | [] => mret tt
  | item :: rest => _ ← print (record_line item); print_records rest
  end.

(** [DataManager.print_data] *)
Definition print_data : Sh unit :=
  items ← method get_data;
  print_records items.

(** [DataManager.read_data] with the two statements that follow the load:
    the heading and [self.print_data()]. *)
Definition read_data_printing : Sh unit :=
  _ ← method read_data;
  _ ← print "Loaded Data:";
  print_data.

(** [Application.display_menu] *)
Definition menu : list string :=
  [String LF "Menu:"; "1. Read Data from File"; "2. Add Data"; "3. Edit Data";
   "4. Delete Data"; "5. Data Analysis"; "6. Filter Data"; "7. Quit"].

Fixpoint print_lines (lines : list string) : Sh unit :=
  match lines with
  | [] => mret tt
  | line :: rest => _ ← print line; print_lines rest
  end.

Definition display_menu : Sh unit := print_lines menu.

(** What a choice does; [false] is the [break]. *)
Definition act (choice : string) : Sh bool :=
  if String.eqb choice "1" then
    _ ← read_data_printing;
    mret true
  else if String.eqb choice "2" then
    food_item ← input "Enter Food Item: ";
    calories ← float_input "Enter Calories: ";
    protein ← float_input "Enter Protein: ";
    carbs ← float_input "Enter Carbs: ";
    _ ← method (add_data (PStr food_item) (PFloat calories) (PFloat protein) (PFloat carbs));
    _ ← print "Data added successfully.";
    mret true
  else if String.eqb choice "3" then
    index ← int_input "Enter the index to edit: ";
    food_item ← input "Enter Food Item: ";
    calories ← float_input "Enter Calories: ";
    protein ← float_input "Enter Protein: ";
    carbs ← float_input "Enter Carbs: ";
    _ ← method (edit_data index (PStr food_item) (PFloat calories) (PFloat protein) (PFloat carbs));
    _ ← print "Data edited successfully.";
    mret true
  else if String.eqb choice "4" then
    index ← int_input "Enter the index to delete: ";
    _ ← method (delete_data index);
    _ ← print "Data deleted successfully.";
    mret true
  else if String.eqb choice "5" then
    field ← input "Enter the field for analysis (calories, protein, carbs): ";
    mean ← method (calculate_mean field);
    median ← method (calculate_median field);
    _ ← print ("Mean " +:+ field +:+ ": " +:+ float_repr mean);
    _ ← print ("Median " +:+ field +:+ ": " +:+ float_repr median);
    mret true
  else if String.eqb choice "6" then
    field ← input "Enter the field for filtering (food_item, calories, protein, carbs): ";
    value ← input ("Enter the value to filter by " +:+ field +:+ ": ");
    filtered_data ← method (filter_data field (PStr value));
    _ ← print "Filtered Data:";
    _ ← print_records filtered_data;
    mret true
  else if String.eqb choice "7" then
    _ ← print "Exiting the application. Goodbye!";
    mret false
  else
    _ ← print "Invalid choice. Please try again.";
    mret true.

(** One turn of the loop of [Application.run]. *)
Definition turn : Sh bool :=
  _ ← display_menu;
  choice ← input "Enter your choice: ";
  act choice.

(** How [Application.run] ends: it returns after choice 7, or an exception
    leaves it. *)
Inductive outcome :=
  | Returned
  | Raised (e : exn)
  | RaisedEOFError
  | OutOfFuel.

(** [Application.run]: the loop, for at most [fuel] turns. *)
Fixpoint run (fuel : nat) (t : Session) : outcome * Session :=
  match fuel with
  | O => (OutOfFuel, t)
  | S fuel' =>
      match turn t with
      | (Value true, t') => run fuel' t'
      | (Value false, t') => (Returned, t')
      | (Uncaught e, t') => (Raised e, t')
      | (EOFError, t') => (RaisedEOFError, t')
      end
  end.

(** The main block: a [DataManager] is constructed, an [Application] is
    built around it and run. [start] is the session [app.run()] begins in,
    in a process whose world is [w] and whose standard input holds [lines]. *)
Definition start (w : World) (lines : list string) : option Session :=
  let '(ref, w') := DataManager_new w in
  dm ← attrs w' ref;
  Some (mkSession (mkStore dm (files w')) lines []).

Definition main (fuel : nat) (w : World) (lines : list string) : option (outcome * Session) :=
  run fuel <$> start w lines.

(** *** What the facts about the shell speak of *)

(** The session [t] after the writes [ws]. *)
Definition wrote (ws : list write) (t : Session) : Session :=
  mkSession (data_manager t) (stdin t) (stdout t ++ ws).

(** A piece of the shell that only ever consumes input: what is left to
    read afterwards is a tail of what was there before. *)
Definition tame {A} (m : Sh A) : Prop :=
  ∀ t, stdin (m t).2 `suffix_of` stdin t.

(** A piece of the shell that does not leave the loop. *)
Definition goes_on (m : Sh bool) : Prop :=
  ∀ t, (m t).1 ≠ Value false.

(** A piece of the shell that keeps a property of the store. *)
Definition preserves {A} (P : Store → Prop) (m : Sh A) : Prop :=
  ∀ t, P (data_manager t) → P (data_manager (m t).2).

(** A record as the shell enters it: the name as text, the quantities as
    floats. *)
Definition entered (item : FoodData) : Prop :=
  ∃ name x y z, item = mkFoodData (PStr name) (PFloat x) (PFloat y) (PFloat z).

Definition all_entered (s : Store) : Prop := Forall entered (data (self s)).

(** What a turn has written once the choice is read. *)
Definition asked : list write := map Print menu ++ [Prompt "Enter your choice: "].

(** A piece of the shell that reads nothing, so that the end of the input
    cannot end it. *)
Definition answers {A} (m : Sh A) : Prop :=
  ∀ t, (m t).1 ≠ EOFError.

(** A piece of the shell that has left the store alone whenever the input
    runs out under it. *)
Definition cut_short_keeps {A} (m : Sh A) : Prop :=
  ∀ t, (m t).1 = EOFError → data_manager (m t).2 = data_manager t.

End Loop.

End Application.

(** ** A console for closed examples

    [int_of_str] reads a decimal numeral, an optional minus sign and digits,
    as CPython's [int] does, and takes anything else for a [ValueError]. *)
Module DemoShell.
Import Application.

Definition int_of_str (s : string) : option Z :=
  match s with
  | String "-" t => (λ u, Z.opp (Z.of_uint u)) <$> NilZero.uint_of_string t
  | _ => Z.of_uint <$> NilZero.uint_of_string s
  end.

Definition console : Console := Build_Console int_of_str.

(** A session over the pantry, with the given lines to read. *)
Definition at_pantry (lines : list string) : Session := mkSession pantry lines [].

(** The same over the records as a load gives them, and over no records. *)
Definition at_loaded (lines : list string) : Session := mkSession pantry_loaded lines [].

Definition at_empty (lines : list string) : Session :=
  mkSession (mkStore (mkDataManager [] "food_nutrition.csv") ∅) lines [].

(** A store whose file holds the table of the pantry, and no records yet. *)
Definition unloaded : Store :=
  mkStore (mkDataManager [] "food_nutrition.csv")
          {["food_nutrition.csv" :=
              crlf_lines ["food_item,calories,protein,carbs"; "Pear,100.0,0.5,27.0";
                          "Rice,200.0,4.0,45.0"; "Bread,200.0,8.0,40.0"]]}.

(** A process in which no [DataManager] has been constructed, with that file. *)
Definition fresh : World := mkWorld [] None (disk unloaded).

End DemoShell.

(** * Properties *)

(** ** The [csv] module: a written file read back *)

Module CsvFacts.
Import Csv.

Lemma parse_chars_app (r : Reader) (a b : list pchar) :
  parse_chars r (a ++ b) = parse_chars r a ≫= λ r', parse_chars r' b.
Proof.
  revert r. induction a as [|c a IH]; intros r; simpl; [done|].
  destruct (parse_process_char r c) as [r'|e]; simpl; [apply IH|done].
Qed.

Local Arguments parse_process_char : simpl never.
Local Arguments at_end : simpl never.
Local Arguments yield : simpl never.

(** Reading the lines of a text is reading its characters and end-of-line
    marks; [cur] is the part of the current line already split off. *)
Lemma reader_read_events (t cur : text) (r0 : Reader) :
  reader r0 (readlines cur t) =
  match parse_chars r0 (map Chr cur) with
  | Ok r => read_events r (text_events (negb (bool_decide (cur = []))) t)
  | Raise e => ([], Some e)
  end.
Proof.
  revert cur r0. induction t as [|c t IH]; intros cur r0.
  - destruct cur as [|a cur]; [done|].
    cbn [readlines reader]. unfold parse_line.
    rewrite parse_chars_app, bool_decide_eq_false_2 by done.
    destruct (parse_chars r0 (map Chr (a :: cur))) as [r|e]; [|done].
    simpl. destruct (parse_process_char r EOL) as [r1|e]; done.
  - cbn [readlines text_events]. destruct (Ascii.eqb_spec c LF) as [->|Hc].
    + cbn [reader]. unfold parse_line.
      rewrite map_app, <- app_assoc, parse_chars_app.
      destruct (parse_chars r0 (map Chr cur)) as [r|e]; [|done].
      simpl. destruct (parse_process_char r (Chr LF)) as [r1|e]; [|done].
      simpl. destruct (parse_process_char r1 EOL) as [r2|e]; [|done].
      simpl. by rewrite !IH.
    + rewrite IH, map_app, parse_chars_app.
      rewrite bool_decide_eq_false_2 by (by destruct cur).
      destruct (parse_chars r0 (map Chr cur)) as [r|e]; [|done].
      simpl. destruct (parse_process_char r (Chr c)) as [r1|e]; done.
Qed.

(** A line inside a text: its characters, then the LF and its mark. *)
Lemma text_events_line (midline : bool) (a b : text) :
  text_events midline (a ++ LF :: b) = marked a ++ Chr LF :: EOL :: text_events false b.
Proof.
  revert midline. induction a as [|c a IH]; intros midline; [done|].
  cbn [app text_events marked flat_map].
  destruct (Ascii.eqb_spec c LF) as [->|Hc]; rewrite IH; done.
Qed.

(** Characters that complete no record leave the rows to what follows. *)
Lemma read_events_within (r r' : Reader) (cs rest : list pchar) :
  within_record r cs = Some r' → read_events r (cs ++ rest) = read_events r' rest.
Proof.
  revert r. induction cs as [|c cs IH]; intros r; simpl.
  - by intros [= ->].
  - destruct (parse_process_char r c) as [r1|e]; [|done].
    destruct (completes c r1); [done|]. apply IH.
Qed.

Lemma within_record_app (r : Reader) (a b : list pchar) :
  within_record r (a ++ b) = within_record r a ≫= λ r', within_record r' b.
Proof.
  revert r. induction a as [|c a IH]; intros r; simpl; [done|].
  destruct (parse_process_char r c) as [r1|e]; [|done].
  destruct (completes c r1); [done|]. apply IH.
Qed.

(** *** Fields *)

Lemma parse_add_char_fits (r : Reader) (c : ascii) :
  (Z.of_nat (length (field r)) < field_limit)%Z →
  parse_add_char r c = Ok (mkReader (state r) (field r ++ [c]) (fields r)).
Proof.
  intros H. unfold parse_add_char.
  destruct (Z.leb_spec field_limit (Z.of_nat (length (field r)))); [lia|done].
Qed.

Lemma special_false (c : ascii) :
  special c = false →
  Ascii.eqb c COMMA = false ∧ Ascii.eqb c DQUOTE = false ∧
  Ascii.eqb c CR = false ∧ Ascii.eqb c LF = false.
Proof.
  unfold special. intros H.
  repeat (apply orb_false_elim in H as [H ?]). done.
Qed.

(** The transitions of the parser that reading a written record takes. *)

Lemma step_start_plain (st : ParserState) (fs : list text) (c : ascii) :
  st = START_FIELD ∨ st = START_RECORD → special c = false →
  parse_process_char (mkReader st [] fs) (Chr c) = Ok (mkReader IN_FIELD [c] fs).
Proof.
  intros Hst (Hcomma & Hquote & Hcr & Hlf)%special_false.
  unfold parse_process_char, start_field, is_newline.
  destruct Hst as [-> | ->]; cbn [state]; by rewrite Hlf, Hcr, Hquote, Hcomma.
Qed.

Lemma step_start_quote (st : ParserState) (f : text) (fs : list text) :
  st = START_FIELD ∨ st = START_RECORD →
  parse_process_char (mkReader st f fs) (Chr DQUOTE) = Ok (mkReader IN_QUOTED_FIELD f fs).
Proof. by intros [-> | ->]. Qed.

Lemma step_field_plain (f : text) (fs : list text) (c : ascii) :
  special c = false → (Z.of_nat (length f) < field_limit)%Z →
  parse_process_char (mkReader IN_FIELD f fs) (Chr c) = Ok (mkReader IN_FIELD (f ++ [c]) fs).
Proof.
  intros (Hcomma & Hquote & Hcr & Hlf)%special_false Hlen.
  unfold parse_process_char, is_newline. cbn [state].
  rewrite Hlf, Hcr, Hcomma. by rewrite parse_add_char_fits.
Qed.

Lemma step_quoted_plain (f : text) (fs : list text) (c : ascii) :
  c ≠ DQUOTE → (Z.of_nat (length f) < field_limit)%Z →
  parse_process_char (mkReader IN_QUOTED_FIELD f fs) (Chr c)
  = Ok (mkReader IN_QUOTED_FIELD (f ++ [c]) fs).
Proof.
  intros Hq%Ascii.eqb_neq Hlen. unfold parse_process_char. cbn [state].
  rewrite Hq. by rewrite parse_add_char_fits.
Qed.

Lemma step_quoted_quote (f : text) (fs : list text) :
  parse_process_char (mkReader IN_QUOTED_FIELD f fs) (Chr DQUOTE)
  = Ok (mkReader QUOTE_IN_QUOTED_FIELD f fs).
Proof. done. Qed.

Lemma step_quote_quote (f : text) (fs : list text) :
  (Z.of_nat (length f) < field_limit)%Z →
  parse_process_char (mkReader QUOTE_IN_QUOTED_FIELD f fs) (Chr DQUOTE)
  = Ok (mkReader IN_QUOTED_FIELD (f ++ [DQUOTE]) fs).
Proof.
  intros Hlen. unfold parse_process_char. cbn [state].
  change (Ascii.eqb DQUOTE DQUOTE) with true. cbv iota.
  by rewrite parse_add_char_fits.
Qed.

Lemma step_quoted_eol (f : text) (fs : list text) :
  parse_process_char (mkReader IN_QUOTED_FIELD f fs) EOL
  = Ok (mkReader IN_QUOTED_FIELD f fs).
Proof. done. Qed.

Lemma step_comma (st : ParserState) (f : text) (fs : list text) :
  after_field st ∨ st = START_RECORD →
  parse_process_char (mkReader st f fs) (Chr COMMA) = Ok (mkReader START_FIELD [] (fs ++ [f])).
Proof. by intros [[-> | [-> | ->]] | ->]. Qed.

Lemma step_lf (st : ParserState) (f : text) (fs : list text) :
  after_field st →
  parse_process_char (mkReader st f fs) (Chr LF) = Ok (mkReader EAT_CRNL [] (fs ++ [f])).
Proof. by intros [-> | [-> | ->]]. Qed.

Lemma step_eat_eol (f : text) (fs : list text) :
  parse_process_char (mkReader EAT_CRNL f fs) EOL = Ok (mkReader START_RECORD f fs).
Proof. done. Qed.

Lemma within_record_step (r r' : Reader) (c : pchar) (cs : list pchar) :
  parse_process_char r c = Ok r' → completes c r' = false →
  within_record r (c :: cs) = within_record r' cs.
Proof. intros H1 H2. cbn [within_record]. by rewrite H1, H2. Qed.

Lemma marked_app (a b : text) : marked (a ++ b) = marked a ++ marked b.
Proof. apply flat_map_app. Qed.

Lemma marked_plain (c : ascii) (s : text) :
  c ≠ LF → marked (c :: s) = Chr c :: marked s.
Proof. intros H%Ascii.eqb_neq. unfold marked. cbn [flat_map]. by rewrite H. Qed.

Lemma marked_lf (s : text) : marked (LF :: s) = Chr LF :: EOL :: marked s.
Proof. done. Qed.

Lemma doubled_cons (c : ascii) (s : text) :
  doubled (c :: s) = (if Ascii.eqb c DQUOTE then [DQUOTE; DQUOTE] else [c]) ++ doubled s.
Proof. done. Qed.

Lemma special_not_lf (c : ascii) : special c = false → c ≠ LF.
Proof. intros (_ & _ & _ & H)%special_false. by apply Ascii.eqb_neq. Qed.

(** An unquoted field: every plain character is appended. *)
Lemma in_field_loop (s f : text) (fs : list text) :
  Forall (λ c, special c = false) s →
  (Z.of_nat (length f + length s) ≤ field_limit)%Z →
  within_record (mkReader IN_FIELD f fs) (marked s) = Some (mkReader IN_FIELD (f ++ s) fs).
Proof.
  revert f. induction s as [|c s IH]; intros f Hs Hlen; cbn [length] in Hlen.
  - by rewrite app_nil_r.
  - apply Forall_cons in Hs as [Hc Hs].
    rewrite marked_plain by (by apply special_not_lf).
    rewrite (within_record_step _ _ _ _ (step_field_plain f fs c Hc ltac:(lia)))
      by done.
    rewrite IH by (done || rewrite length_app; simpl; lia).
    by rewrite <- app_assoc.
Qed.

(** A quoted field: a doubled quote is one quote, a line end inside the
    quotes is a character of the field. *)
Lemma in_quoted_loop (s f : text) (fs : list text) :
  (Z.of_nat (length f + length s) ≤ field_limit)%Z →
  within_record (mkReader IN_QUOTED_FIELD f fs) (marked (doubled s))
  = Some (mkReader IN_QUOTED_FIELD (f ++ s) fs).
Proof.
  revert f. induction s as [|c s IH]; intros f Hlen; cbn [length] in Hlen.
  - by rewrite app_nil_r.
  - assert (Hnext : within_record (mkReader IN_QUOTED_FIELD (f ++ [c]) fs) (marked (doubled s))
                    = Some (mkReader IN_QUOTED_FIELD (f ++ c :: s) fs)).
    { rewrite IH by (rewrite length_app; simpl; lia). by rewrite <- app_assoc. }
    rewrite doubled_cons, marked_app.
    destruct (Ascii.eqb_spec c DQUOTE) as [->|Hq].
    + change (marked [DQUOTE; DQUOTE]) with [Chr DQUOTE; Chr DQUOTE]. cbn [app].
      rewrite (within_record_step _ _ _ _ (step_quoted_quote f fs)) by done.
      by rewrite (within_record_step _ _ _ _ (step_quote_quote f fs ltac:(lia))).
    + destruct (decide (c = LF)) as [->|Hlf].
      * rewrite marked_lf. cbn [marked flat_map app].
        rewrite (within_record_step _ _ _ _ (step_quoted_plain f fs LF Hq ltac:(lia)))
          by done.
        by rewrite (within_record_step _ _ _ _ (step_quoted_eol _ fs)).
      * rewrite marked_plain by done. cbn [marked flat_map app].
        by rewrite (within_record_step _ _ _ _ (step_quoted_plain f fs c Hq ltac:(lia))).
Qed.

Lemma existsb_false_Forall {A} (p : A → bool) (l : list A) :
  existsb p l = false → Forall (λ x, p x = false) l.
Proof.
  induction l as [|x l IH]; simpl; [constructor|].
  intros [Hx Hl]%orb_false_elim. constructor; auto.
Qed.

Lemma read_events_step (r r' : Reader) (c : pchar) (cs : list pchar) :
  parse_process_char r c = Ok r' → completes c r' = false →
  read_events r (c :: cs) = read_events r' cs.
Proof. intros H1 H2. cbn [read_events]. by rewrite H1, H2. Qed.

(** Reading what [join_append] wrote for a field, from the start of a field:
    the parser holds the field, in a state a delimiter or a line end can
    follow. *)
Lemma read_field (st : ParserState) (fs : list text) (s : text) :
  st = START_FIELD ∨ st = START_RECORD → fits s →
  ∃ st', within_record (mkReader st [] fs) (marked (join_append s))
           = Some (mkReader st' s fs)
         ∧ (after_field st' ∨ st' = st).
Proof.
  intros Hst Hfit. unfold fits in Hfit. unfold join_append.
  destruct (existsb special s) eqn:E.
  - exists QUOTE_IN_QUOTED_FIELD. split; [|left; right; by right].
    rewrite marked_plain by done. rewrite marked_app.
    rewrite (within_record_step _ _ _ _ (step_start_quote st [] fs Hst)) by done.
    rewrite within_record_app, in_quoted_loop by (simpl; lia).
    change (marked [DQUOTE]) with [Chr DQUOTE]. cbn [mbind option_bind app].
    by rewrite (within_record_step _ _ _ _ (step_quoted_quote s fs)).
  - apply existsb_false_Forall in E. destruct s as [|c s].
    + exists st. by split; [|right].
    + exists IN_FIELD. split; [|left; right; by left].
      apply Forall_cons in E as [Hc Hs]. cbn [length] in Hfit.
      rewrite marked_plain by (by apply special_not_lf).
      rewrite (within_record_step _ _ _ _ (step_start_plain st fs c Hst Hc)) by done.
      by rewrite in_field_loop by (done || simpl; lia).
Qed.

Lemma read_field_comma (st : ParserState) (fs : list text) (s : text) (rest : list pchar) :
  st = START_FIELD ∨ st = START_RECORD → fits s →
  read_events (mkReader st [] fs) (marked (join_append s) ++ Chr COMMA :: rest)
  = read_events (mkReader START_FIELD [] (fs ++ [s])) rest.
Proof.
  intros Hst Hfit. destruct (read_field st fs s Hst Hfit) as (st' & Hrun & Hst').
  rewrite (read_events_within _ _ _ _ Hrun).
  apply read_events_step; [|done]. apply step_comma.
  destruct Hst' as [?| ->]; [by left|]. destruct Hst as [-> | ->]; [left; by left|by right].
Qed.

Lemma read_field_line_end (fs : list text) (s : text) (rest : list pchar) :
  fits s →
  read_events (mkReader START_FIELD [] fs) (marked (join_append s) ++ Chr LF :: EOL :: rest)
  = yield (fs ++ [s]) (read_events parse_reset rest).
Proof.
  intros Hfit.
  destruct (read_field START_FIELD fs s (or_introl eq_refl) Hfit) as (st' & Hrun & Hst').
  rewrite (read_events_within _ _ _ _ Hrun).
  assert (Hafter : after_field st') by (destruct Hst' as [?| ->]; [done|by left]).
  rewrite (read_events_step _ _ _ _ (step_lf st' s fs Hafter)) by done.
  cbn [read_events]. by rewrite step_eat_eol.
Qed.

Lemma join_fields_cons (f g : text) (tl : list text) :
  join_fields (f :: g :: tl) = join_append f ++ COMMA :: join_fields (g :: tl).
Proof. done. Qed.

Lemma marked_comma (s : text) : marked (COMMA :: s) = Chr COMMA :: marked s.
Proof. done. Qed.

(** The fields after the first of a record, up to the end of its line. *)
Lemma read_fields (cells fs : list text) (rest : list pchar) :
  cells ≠ [] → Forall fits cells →
  read_events (mkReader START_FIELD [] fs)
              (marked (join_fields cells) ++ Chr LF :: EOL :: rest)
  = yield (fs ++ cells) (read_events parse_reset rest).
Proof.
  revert fs. induction cells as [|f [|g tl] IH]; intros fs Hne Hfit; [done| |].
  - apply Forall_cons in Hfit as [Hf _]. by apply read_field_line_end.
  - apply Forall_cons in Hfit as [Hf Hfit].
    rewrite join_fields_cons, marked_app, marked_comma, <- app_assoc. cbn [app].
    rewrite read_field_comma by (by left || done).
    rewrite IH by done. by rewrite <- app_assoc.
Qed.

(** Reading a written record: the reader yields its fields and starts afresh. *)
Lemma read_record (cells : list text) (rest : list pchar) :
  wide cells → Forall fits cells →
  read_events parse_reset (marked (join_fields cells) ++ Chr LF :: EOL :: rest)
  = yield cells (read_events parse_reset rest).
Proof.
  intros Hwide Hfit. unfold wide in Hwide.
  destruct cells as [|f [|g tl]]; [simpl in Hwide; lia..|].
  apply Forall_cons in Hfit as [Hf Hfit].
  rewrite join_fields_cons, marked_app, marked_comma, <- app_assoc. cbn [app].
  unfold parse_reset. rewrite read_field_comma by (by right || done).
  by rewrite read_fields.
Qed.

(** *** Whole files *)

Lemma writerow_wide (cells : list text) :
  wide cells → writerow cells = join_fields cells ++ [CR; LF].
Proof.
  unfold wide. intros Hwide.
  destruct cells as [|f [|g tl]]; [simpl in Hwide; lia..|].
  unfold writerow. rewrite join_fields_cons.
  destruct (join_append f ++ COMMA :: join_fields (g :: tl)) eqn:E; [|done].
  by apply app_eq_nil in E as [_ ?].
Qed.

(** Universal newlines change nothing before the CR LF that ends a line
    without carriage returns. *)
Lemma universal_newlines_line (s t : text) :
  CR ∉ s →
  universal_newlines (s ++ CR :: LF :: t) = s ++ LF :: universal_newlines t.
Proof.
  induction s as [|c s IH]; intros Hs; [done|].
  apply not_elem_of_cons in Hs as [Hc Hs]. cbn [app universal_newlines].
  rewrite (proj2 (Ascii.eqb_neq c CR)) by done. by rewrite IH.
Qed.

Lemma doubled_no_cr (s : text) : CR ∉ s → CR ∉ doubled s.
Proof.
  induction s as [|c s IH]; [done|].
  intros [Hc Hs]%not_elem_of_cons. rewrite doubled_cons.
  apply not_elem_of_app. split; [|auto].
  destruct (Ascii.eqb c DQUOTE);
    repeat (apply not_elem_of_cons; split; [done|]); apply not_elem_of_nil.
Qed.

Lemma join_append_no_cr (s : text) : CR ∉ s → CR ∉ join_append s.
Proof.
  intros Hs. unfold join_append. destruct (existsb special s); [|done].
  apply not_elem_of_cons. split; [done|].
  apply not_elem_of_app. split; [by apply doubled_no_cr|].
  apply not_elem_of_cons. split; [done|apply not_elem_of_nil].
Qed.

Lemma join_fields_no_cr (cells : list text) :
  Forall (λ s, CR ∉ s) cells → CR ∉ join_fields cells.
Proof.
  induction cells as [|f [|g tl] IH]; intros Hcells.
  - apply not_elem_of_nil.
  - apply Forall_cons in Hcells as [Hf _]. by apply join_append_no_cr.
  - apply Forall_cons in Hcells as [Hf Hcells]. rewrite join_fields_cons.
    apply not_elem_of_app. split; [by apply join_append_no_cr|].
    apply not_elem_of_cons. split; [done|auto].
Qed.

(** A file of records as [writerow] writes them, read back through
    [open(name, 'r')] and [csv.reader]: the records, cell for cell. *)
Lemma reader_writerow (records : list (list text)) :
  Forall (λ cells, wide cells ∧ Forall portable cells) records →
  reader parse_reset (readlines [] (universal_newlines (concat (map writerow records))))
  = (records, None).
Proof.
  intros Hrecords. rewrite reader_read_events. cbn [map parse_chars bool_decide negb].
  rewrite bool_decide_eq_true_2 by done. cbn [negb].
  induction Hrecords as [|cells records [Hwide Hcells] _ IH]; [done|].
  cbn [map concat]. rewrite writerow_wide by done. rewrite <- app_assoc. cbn [app].
  rewrite universal_newlines_line.
  - rewrite text_events_line, read_record, IH; [done|done|].
    eapply Forall_impl; [exact Hcells|]. by intros s [? ?].
  - apply join_fields_no_cr. eapply Forall_impl; [exact Hcells|]. by intros s [? ?].
Qed.

(** *** A field too long for the reader *)

Lemma step_field_overflow (f : text) (fs : list text) (c : ascii) :
  special c = false → (field_limit ≤ Z.of_nat (length f))%Z →
  parse_process_char (mkReader IN_FIELD f fs) (Chr c) = Raise CsvError.
Proof.
  intros (Hcomma & Hquote & Hcr & Hlf)%special_false Hlen.
  unfold parse_process_char, is_newline, parse_add_char. cbn [state field].
  rewrite Hlf, Hcr, Hcomma. cbn [orb].
  by destruct (Z.leb_spec field_limit (Z.of_nat (length f))); [|lia].
Qed.

Lemma text_events_plain (midline : bool) (c : ascii) (t : text) :
  special c = false →
  text_events midline (c :: t) = Chr c :: text_events true t.
Proof.
  intros (_ & _ & _ & Hlf)%special_false. cbn [text_events]. by rewrite Hlf.
Qed.

Lemma in_field_overflow (cell f : text) (fs : list text) (midline : bool) (rest : text) :
  Forall (λ c, special c = false) cell →
  (Z.of_nat (length f) ≤ field_limit < Z.of_nat (length f + length cell))%Z →
  read_events (mkReader IN_FIELD f fs) (text_events midline (cell ++ rest))
  = ([], Some CsvError).
Proof.
  revert f midline. induction cell as [|c cell IH]; intros f midline Hcell Hlen;
    cbn [length] in Hlen; [lia|].
  apply Forall_cons in Hcell as [Hc Hcell].
  cbn [app]. rewrite text_events_plain by done.
  destruct (decide (field_limit ≤ Z.of_nat (length f))%Z) as [Hfull|Hroom].
  - cbn [read_events]. by rewrite step_field_overflow.
  - rewrite (read_events_step _ _ _ _ (step_field_plain f fs c Hc ltac:(lia))) by done.
    apply IH; [done|]. rewrite length_app. simpl. lia.
Qed.

Lemma universal_newlines_plain (cell rest : text) :
  Forall (λ c, special c = false) cell →
  universal_newlines (cell ++ rest) = cell ++ universal_newlines rest.
Proof.
  induction 1 as [|c cell (_ & _ & Hcr & _)%special_false _ IH]; [done|].
  cbn [app universal_newlines]. by rewrite Hcr, IH.
Qed.

(** The records of a written file are read back whatever follows them. *)
Lemma read_events_written (records : list (list text)) (tail : text) :
  Forall (λ cells, wide cells ∧ Forall portable cells) records →
  read_events parse_reset
    (text_events false (universal_newlines (concat (map writerow records) ++ tail)))
  = let rs := read_events parse_reset (text_events false (universal_newlines tail)) in
    (records ++ rs.1, rs.2).
Proof.
  intros Hrecords.
  induction Hrecords as [|cells records [Hwide Hcells] _ IH]; [by destruct (read_events _ _)|].
  cbn [map concat]. rewrite writerow_wide by done. rewrite <- !app_assoc. cbn [app].
  rewrite universal_newlines_line.
  - rewrite text_events_line, read_record, IH; [done|done|].
    eapply Forall_impl; [exact Hcells|]. by intros s [? ?].
  - apply join_fields_no_cr. eapply Forall_impl; [exact Hcells|]. by intros s [? ?].
Qed.

(** A written file followed by a row that begins with a field of more than
    131072 plain characters: the reader yields the records and then raises. *)
Lemma reader_long_field (records : list (list text)) (cell rest : text) :
  Forall (λ cells, wide cells ∧ Forall portable cells) records →
  Forall (λ c, special c = false) cell →
  (field_limit < Z.of_nat (length cell))%Z →
  reader parse_reset
    (readlines [] (universal_newlines (concat (map writerow records) ++ cell ++ rest)))
  = (records, Some CsvError).
Proof.
  intros Hrecords Hcell Hlen. rewrite reader_read_events.
  cbn [map parse_chars]. rewrite bool_decide_eq_true_2 by done. cbn [negb].
  rewrite (read_events_written _ _ Hrecords).
  rewrite universal_newlines_plain by done.
  destruct cell as [|c cell]; [simpl in Hlen; unfold field_limit in Hlen; lia|].
  apply Forall_cons in Hcell as [Hc Hcell]. cbn [app length] in *.
  rewrite text_events_plain by done.
  unfold parse_reset.
  rewrite (read_events_step _ _ _ _ (step_start_plain START_RECORD [] c (or_intror eq_refl) Hc))
    by done.
  rewrite in_field_overflow; [by rewrite app_nil_r|done|].
  unfold field_limit in *. simpl. lia.
Qed.

End CsvFacts.

(** ** Loading *)

Module LoadFacts.
Import Csv CsvFacts.

(** Under the header [save_data] writes, a row of at most four cells is
    accepted by [FoodData]; a longer one is a [TypeError]. *)
Lemma kwargs_short_row (row : list text) :
  length row ≤ 4 →
  FoodData_kwargs (to_dict header row) = Ok (record_of_row row).
Proof.
  intros Hlen.
  destruct row as [|a [|b [|c [|d [|e tl]]]]]; try (simpl in Hlen; lia);
    vm_compute; reflexivity.
Qed.

Lemma kwargs_long_row (row : list text) :
  4 < length row →
  FoodData_kwargs (to_dict header row) = Raise TypeError.
Proof.
  intros Hlen. unfold to_dict.
  change (length header) with 4.
  destruct (Nat.ltb_spec 4 (length row)); [done|lia].
Qed.

Lemma comprehension_ok {A B} (f : A → result B) (g : A → B) (l : list A) :
  Forall (λ x, f x = Ok (g x)) l → comprehension f l = Ok (map g l).
Proof.
  induction 1 as [|x l Hx _ IH]; [done|].
  cbn [comprehension map]. by rewrite Hx, IH.
Qed.

Lemma comprehension_raise {A B} (f : A → result B) (e : exn) (l : list A) :
  Forall (λ x, (∃ y, f x = Ok y) ∨ f x = Raise e) l →
  Exists (λ x, f x = Raise e) l →
  comprehension f l = Raise e.
Proof.
  intros Hall Hex. induction Hall as [|x l Hx _ IH]; [by inversion Hex|].
  cbn [comprehension].
  destruct Hx as [[y Hy]|Hx]; [|by rewrite Hx].
  rewrite Hy. apply Exists_cons in Hex as [Hex|Hex]; [congruence|].
  by rewrite IH.
Qed.

Lemma comprehension_map {A B C} (f : B → result C) (g : A → B) (l : list A) :
  comprehension f (map g l) = comprehension (λ x, f (g x)) l.
Proof. induction l as [|x l IH]; [done|]. cbn [comprehension map]. by rewrite IH. Qed.

Lemma Forall_List_filter {A} (P : A → Prop) (p : A → bool) (l : list A) :
  Forall P l → Forall P (List.filter p l).
Proof.
  induction 1 as [|x l Hx _ IH]; [constructor|].
  cbn [List.filter]. destruct (p x); [by constructor|done].
Qed.

Lemma Exists_List_filter {A} (P : A → Prop) (p : A → bool) (l : list A) :
  (∀ x, P x → p x = true) → Exists P l → Exists P (List.filter p l).
Proof.
  intros HP. induction 1 as [x l Hx|x l _ IH]; cbn [List.filter].
  - rewrite (HP x Hx). by left.
  - destruct (p x); [by right|done].
Qed.

Lemma load_rows_header (lines : list text) (body : list (list text)) (ending : option exn) :
  reader parse_reset lines = (header :: body, ending) →
  load_rows lines =
  items ← comprehension (λ row, FoodData_kwargs (to_dict header row)) (nonblank body);
  match ending with
  | Some e => Raise e
  | None => Ok items
  end.
Proof.
  intros Hreader. unfold load_rows, DictReader. rewrite Hreader. cbn [fst snd].
  by rewrite comprehension_map.
Qed.

Lemma read_data_run (s : Store) (content : text) :
  disk s !! filename (self s) = Some content →
  read_data s =
  match load_rows (readlines [] (universal_newlines content)) with
  | Ok items => (Ok tt, mkStore (mkDataManager items (filename (self s))) (disk s))
  | Raise e => (Raise e, s)
  end.
Proof.
  intros Hfile. unfold read_data, read_file, pure, set_data.
  unfold mbind, Py_bind. rewrite Hfile.
  by destruct (load_rows _).
Qed.

(** [read_data] on a file whose first row is the header [save_data] writes. *)
Lemma read_data_header (s : Store) (content : text) (body : list (list text)) :
  disk s !! filename (self s) = Some content →
  reader parse_reset (readlines [] (universal_newlines content)) = (header :: body, None) →
  (Forall (λ row, length row ≤ 4) body →
     read_data s =
     (Ok tt, mkStore (mkDataManager (map record_of_row (nonblank body)) (filename (self s)))
                     (disk s))) ∧
  (Exists (λ row, 4 < length row) body → read_data s = (Raise TypeError, s)).
Proof.
  intros Hfile Hreader.
  rewrite (read_data_run _ _ Hfile), (load_rows_header _ _ _ Hreader). split.
  - intros Hshort.
    rewrite (comprehension_ok _ record_of_row); [done|].
    apply Forall_List_filter.
    eapply Forall_impl; [exact Hshort|]. intros row. apply kwargs_short_row.
  - intros Hlong.
    rewrite (comprehension_raise _ TypeError); [done| |].
    + apply Forall_forall. intros row _.
      destruct (le_lt_dec (length row) 4) as [Hle|Hlt].
      * left. eexists. by apply kwargs_short_row.
      * right. by apply kwargs_long_row.
    + apply (Exists_impl (λ row, 4 < length row)); [|apply kwargs_long_row].
      apply Exists_List_filter; [|done].
      intros [|c row] Hrow; [simpl in Hrow; lia|done].
Qed.

(** The only exception the reader raises is [csv.Error]. *)
Lemma parse_process_char_raises (r : Reader) (c : pchar) (e : exn) :
  parse_process_char r c = Raise e → e = CsvError.
Proof.
  unfold parse_process_char, start_field, parse_add_char.
  destruct (state r), c; repeat case_match; cbn [mbind result_bind]; congruence.
Qed.

Lemma parse_chars_raises (cs : list pchar) (r : Reader) (e : exn) :
  parse_chars r cs = Raise e → e = CsvError.
Proof.
  revert r. induction cs as [|c cs IH]; intros r; cbn [parse_chars]; [done|].
  destruct (parse_process_char r c) as [r'|e'] eqn:Hc; cbn [mbind result_bind].
  - apply IH.
  - intros [= <-]. by apply parse_process_char_raises in Hc.
Qed.

Lemma reader_raises (lines : list text) (r : Reader) (e : exn) :
  (reader r lines).2 = Some e → e = CsvError.
Proof.
  revert r. induction lines as [|line lines IH]; intros r; cbn [reader].
  - unfold at_end. by case_match.
  - destruct (parse_line r line) as [r'|e'] eqn:Hline.
    + destruct (is_start_record (state r')); [|apply IH].
      unfold yield. cbn [snd]. apply IH.
    + cbn [snd]. intros [= <-]. by apply parse_chars_raises in Hline.
Qed.

(** [read_data] on a file whose first row is the header [save_data] writes,
    whether the reader reaches the end of the file or stops at an error. *)
Lemma read_data_header_ending (s : Store) (content : text) (body : list (list text))
    (ending : option exn) :
  disk s !! filename (self s) = Some content →
  reader parse_reset (readlines [] (universal_newlines content)) = (header :: body, ending) →
  (Forall (λ row, length row ≤ 4) body →
     match ending with
     | None =>
         read_data s =
         (Ok tt, mkStore (mkDataManager (map record_of_row (nonblank body)) (filename (self s)))
                         (disk s))
     | Some e => e = CsvError ∧ read_data s = (Raise CsvError, s)
     end) ∧
  (Exists (λ row, 4 < length row) body → read_data s = (Raise TypeError, s)).
Proof.
  intros Hfile Hreader.
  rewrite (read_data_run _ _ Hfile), (load_rows_header _ _ _ Hreader). split.
  - intros Hshort.
    rewrite (comprehension_ok _ record_of_row).
    + destruct ending as [e|]; [|done].
      assert (e = CsvError) as ->; [|done].
      apply (reader_raises (readlines [] (universal_newlines content)) parse_reset).
      by rewrite Hreader.
    + apply Forall_List_filter.
      eapply Forall_impl; [exact Hshort|]. intros row. apply kwargs_short_row.
  - intros Hlong.
    rewrite (comprehension_raise _ TypeError); [done| |].
    + apply Forall_forall. intros row _.
      destruct (le_lt_dec (length row) 4) as [Hle|Hlt].
      * left. eexists. by apply kwargs_short_row.
      * right. by apply kwargs_long_row.
    + apply (Exists_impl (λ row, 4 < length row)); [|apply kwargs_long_row].
      apply Exists_List_filter; [|done].
      intros [|c row] Hrow; [simpl in Hrow; lia|done].
Qed.

Section RoundTrip.
Context {RT : Runtime}.

Lemma table_records (items : list FoodData) :
  table items = concat (map writerow (header :: map cells items)).
Proof. unfold table. cbn [map concat]. by rewrite map_map. Qed.

Lemma header_portable : wide header ∧ Forall portable header.
Proof.
  split; [unfold wide; simpl; lia|].
  apply (bool_decide_unpack _). by vm_compute.
Qed.

Lemma cells_portable (item : FoodData) :
  writable_record item → wide (cells item) ∧ Forall portable (cells item).
Proof.
  intros (Hf & Hc & Hp & Hb). split; [unfold wide; simpl; lia|].
  unfold cells. cbn [map].
  repeat (apply Forall_cons; split; [done|]). constructor.
Qed.

Lemma record_of_cells (item : FoodData) : record_of_row (cells item) = as_text item.
Proof.
  unfold record_of_row, cell_value, cells, as_text, str_of, text_of. cbn [map lookup list_lookup].
  by rewrite !string_of_list_ascii_of_string.
Qed.

Lemma nonblank_cells (items : list FoodData) :
  nonblank (map cells items) = map cells items.
Proof. induction items as [|item items IH]; [done|]. unfold nonblank in *. simpl. by rewrite IH. Qed.

Lemma is_text_writable (v : pyval) : is_text v → writable v ∧ PStr (cell_str v) = v.
Proof. by destruct v. Qed.

Lemma text_record_as_text (item : FoodData) :
  text_record item → writable_record item ∧ as_text item = item.
Proof.
  destruct item as [f c p b].
  intros ([? Hf]%is_text_writable & [? Hc]%is_text_writable &
          [? Hp]%is_text_writable & [? Hb]%is_text_writable).
  split; [done|]. unfold as_text. cbn [food_item calories protein carbs] in *.
  by rewrite Hf, Hc, Hp, Hb.
Qed.

(** [read_data] on the file [save_data] has just written. *)
Lemma read_data_saved (s : Store) :
  Forall writable_record (data (self s)) →
  read_data (save_data s).2 =
  (Ok tt, mkStore (mkDataManager (map as_text (data (self s))) (filename (self s)))
                  (disk (save_data s).2)).
Proof.
  intros Hdata.
  assert (Hfile : disk (save_data s).2 !! filename (self (save_data s).2)
                  = Some (table (data (self s))))
    by apply lookup_insert_eq.
  destruct (read_data_header _ _ (map cells (data (self s))) Hfile) as [Hload _].
  - rewrite table_records. apply reader_writerow.
    constructor; [apply header_portable|].
    apply Forall_map. eapply Forall_impl; [exact Hdata|]. apply cells_portable.
  - rewrite Hload.
    + rewrite nonblank_cells, map_map.
      by rewrite (map_ext _ _ record_of_cells).
    + apply Forall_map, Forall_forall. intros item _. simpl. lia.
Qed.

End RoundTrip.

End LoadFacts.

(** ** The store *)

(** Unfolds a method body down to its state transformer. *)
Ltac run :=
  unfold add_data, edit_data, delete_data, calculate_mean, calculate_median,
    filter_data, save_data, read_data, get_data, set_data, write_file, pure;
  unfold mbind, mret, Py_bind, Py_ret; simpl.

Section StoreProperties.
Context {RT : Runtime}.

(** ** Saving *)

Lemma save_data_run (s : Store) :
  save_data s =
  (Ok tt, mkStore (self s) (<[filename (self s) := table (data (self s))]> (disk s))).
Proof. reflexivity. Qed.

(** ** Adding *)

Lemma add_data_run (s : Store) (n c p b : pyval) :
  add_data n c p b s =
  save_data (mkStore (mkDataManager (data (self s) ++ [mkFoodData n c p b])
                                    (filename (self s)))
                     (disk s)).
Proof. reflexivity. Qed.

(** ** Editing and deleting *)

Lemma edit_data_in_range (s : Store) (i : Z) (n c p b : pyval) :
  (0 ≤ i < Z.of_nat (length (data (self s))))%Z →
  edit_data i n c p b s =
  save_data (mkStore (mkDataManager (<[Z.to_nat i := mkFoodData n c p b]> (data (self s)))
                                    (filename (self s)))
                     (disk s)).
Proof. intros Hi. run. rewrite bool_decide_eq_true_2 by done. reflexivity. Qed.

Lemma edit_data_out_of_range (s : Store) (i : Z) (n c p b : pyval) :
  ¬ (0 ≤ i < Z.of_nat (length (data (self s))))%Z →
  edit_data i n c p b s = (Ok tt, s).
Proof. intros Hi. run. rewrite bool_decide_eq_false_2 by done. reflexivity. Qed.

Lemma delete_data_in_range (s : Store) (i : Z) :
  (0 ≤ i < Z.of_nat (length (data (self s))))%Z →
  delete_data i s =
  save_data (mkStore (mkDataManager (delete (Z.to_nat i) (data (self s)))
                                    (filename (self s)))
                     (disk s)).
Proof. intros Hi. run. rewrite bool_decide_eq_true_2 by done. reflexivity. Qed.

Lemma delete_data_out_of_range (s : Store) (i : Z) :
  ¬ (0 ≤ i < Z.of_nat (length (data (self s))))%Z →
  delete_data i s = (Ok tt, s).
Proof. intros Hi. run. rewrite bool_decide_eq_false_2 by done. reflexivity. Qed.

(** ** Analytics *)

Lemma calculate_mean_run (s : Store) (field : string) :
  calculate_mean field s =
  (field_values field (data (self s)) ≫= statistics_mean, s).
Proof. run. destruct (field_values _ _); reflexivity. Qed.

Lemma calculate_median_run (s : Store) (field : string) :
  calculate_median field s =
  (field_values field (data (self s)) ≫= statistics_median, s).
Proof. run. destruct (field_values _ _); reflexivity. Qed.

Lemma filter_data_run (s : Store) (field : string) (value : pyval) :
  filter_data field value s = (matching field value (data (self s)), s).
Proof. reflexivity. Qed.

Lemma getattr_unknown (item : FoodData) (name : string) :
  unknown_attribute name → getattr item name = Raise AttributeError.
Proof.
  intros [Hname Hclass]. unfold getattr.
  destruct (String.eqb_spec name "food_item") as [->|_]; [set_solver|].
  destruct (String.eqb_spec name "calories") as [->|_]; [set_solver|].
  destruct (String.eqb_spec name "protein") as [->|_]; [set_solver|].
  destruct (String.eqb_spec name "carbs") as [->|_]; [set_solver|].
  by rewrite Hclass.
Qed.

Lemma field_values_unknown (field : string) (items : list FoodData) :
  unknown_attribute field → items ≠ [] →
  field_values field items = Raise AttributeError.
Proof.
  intros Hf Hne. destruct items as [|item items]; [done|].
  unfold field_values. simpl. by rewrite getattr_unknown.
Qed.

End StoreProperties.

(** ** The mutating operations *)

(** C6. [add_data] always succeeds: it appends the record built from the
    inputs at the tail of the sequence, which grows by exactly one and keeps
    every record it had (whether or not a record of that name is already
    there), and it then saves, so that the backing file holds the table of
    the new sequence. *)
Theorem add_data_appends {RT : Runtime} (s : Store) (n c p b : pyval) :
  let s' := (add_data n c p b s).2 in
  (add_data n c p b s).1 = Ok tt ∧
  data (self s') = data (self s) ++ [mkFoodData n c p b] ∧
  length (data (self s')) = S (length (data (self s))) ∧
  last (data (self s')) = Some (mkFoodData n c p b) ∧
  (∀ j x, data (self s) !! j = Some x → data (self s') !! j = Some x) ∧
  filename (self s') = filename (self s) ∧
  s' = (save_data (mkStore (self s') (disk s))).2 ∧
  disk s' = <[filename (self s) := table (data (self s'))]> (disk s).
Proof.
  intros s'. subst s'. rewrite add_data_run, save_data_run. simpl.
  repeat split.
  - rewrite length_app. simpl. lia.
  - apply last_snoc.
  - intros j x Hj. by apply lookup_app_l_Some.
Qed.

(** C4. [edit_data] with an index in range puts the record built from the
    inputs at that index and leaves the length and every other record as they
    were, then saves; with an index out of range it leaves the sequence and
    every file as they were: nothing is saved. *)
Theorem edit_data_frame {RT : Runtime} (s : Store) (i : Z) (n c p b : pyval) :
  let s' := (edit_data i n c p b s).2 in
  ((0 ≤ i < Z.of_nat (length (data (self s))))%Z →
     (edit_data i n c p b s).1 = Ok tt ∧
     length (data (self s')) = length (data (self s)) ∧
     data (self s') !! Z.to_nat i = Some (mkFoodData n c p b) ∧
     (∀ j : nat, j ≠ Z.to_nat i → data (self s') !! j = data (self s) !! j) ∧
     filename (self s') = filename (self s) ∧
     disk s' = <[filename (self s) := table (data (self s'))]> (disk s)) ∧
  (¬ (0 ≤ i < Z.of_nat (length (data (self s))))%Z →
     edit_data i n c p b s = (Ok tt, s)).
Proof.
  intros s'. subst s'. split.
  - intros Hi. rewrite edit_data_in_range, save_data_run by done. simpl.
    repeat split.
    + apply length_insert.
    + apply list_lookup_insert_eq. lia.
    + intros j Hj. by apply list_lookup_insert_ne.
  - apply edit_data_out_of_range.
Qed.

(** C5. [delete_data] with an index in range removes the record at that
    index: the sequence is one shorter, the records before the index keep
    their positions, every record after it moves down by one, and the result
    is saved; with an index out of range the sequence and every file stay as
    they were. *)
Theorem delete_data_shifts {RT : Runtime} (s : Store) (i : Z) :
  let s' := (delete_data i s).2 in
  ((0 ≤ i < Z.of_nat (length (data (self s))))%Z →
     (delete_data i s).1 = Ok tt ∧
     S (length (data (self s'))) = length (data (self s)) ∧
     (∀ j : nat, j < Z.to_nat i → data (self s') !! j = data (self s) !! j) ∧
     (∀ j : nat, Z.to_nat i ≤ j → data (self s') !! j = data (self s) !! S j) ∧
     filename (self s') = filename (self s) ∧
     disk s' = <[filename (self s) := table (data (self s'))]> (disk s)) ∧
  (¬ (0 ≤ i < Z.of_nat (length (data (self s))))%Z →
     delete_data i s = (Ok tt, s)).
Proof.
  intros s'. subst s'. split.
  - intros Hi. rewrite delete_data_in_range, save_data_run by done. simpl.
    repeat split.
    + rewrite length_delete; [lia|]. apply lookup_lt_is_Some. lia.
    + intros j Hj. by apply list_lookup_delete_lt.
    + intros j Hj. by apply list_lookup_delete_ge.
  - apply delete_data_out_of_range.
Qed.

(** ** The analytics *)

(** C8. On an empty store [calculate_mean] and [calculate_median] raise
    [StatisticsError], whatever the field name, and so return no number. *)
Theorem mean_median_empty {RT : Runtime}
    (name : string) (d : gmap string text) (field : string) :
  let s := mkStore (mkDataManager [] name) d in
  calculate_mean field s = (Raise StatisticsError, s) ∧
  calculate_median field s = (Raise StatisticsError, s) ∧
  (∀ x, (calculate_mean field s).1 ≠ Ok x) ∧
  (∀ x, (calculate_median field s).1 ≠ Ok x).
Proof.
  intros s. rewrite calculate_mean_run, calculate_median_run. simpl.
  repeat split; intros x; discriminate.
Qed.

(** C10. [calculate_mean], [calculate_median] and [filter_data] leave the
    state they run on as it is, whether they return or raise: the same record
    sequence, the same file name and the same files. *)
Theorem analytics_frame {RT : Runtime} (s : Store) (field : string) (value : pyval) :
  (calculate_mean field s).2 = s ∧
  (calculate_median field s).2 = s ∧
  (filter_data field value s).2 = s.
Proof.
  rewrite calculate_mean_run, calculate_median_run, filter_data_run. done.
Qed.

(** *** Unknown field names *)

(** C9, as the claim states it, fails: on an empty store [filter_data] with
    an unknown field name raises nothing and returns the empty list, because
    the name is looked up once per record. *)
Lemma unknown_field_on_empty_store :
  ¬ (∀ (RT : Runtime) (s : Store) (field : string) (value : pyval),
       field ∉ ["food_item"; "calories"; "protein"; "carbs"] →
       (∃ e, (filter_data field value s).1 = Raise e) ∧
       (∃ e, (calculate_mean field s).1 = Raise e) ∧
       (∃ e, (calculate_median field s).1 = Raise e)).
Proof.
  intros H.
  destruct (H Demo.runtime (mkStore (mkDataManager [] "food_nutrition.csv") ∅)
              "unknown" (PStr "x")) as [[e He] _].
  - intros Hin.
    repeat (apply elem_of_cons in Hin as [Hin|Hin]; [discriminate Hin|]).
    by apply elem_of_nil in Hin.
  - discriminate He.
Qed.

(** C9, amended. With a name that is no attribute of a record (none of the
    four fields, nothing the class provides), [filter_data], [calculate_mean]
    and [calculate_median] raise [AttributeError] on every store that holds
    at least one record, and leave the state as it is; on an empty store
    [filter_data] returns the empty list and the two statistics raise
    [StatisticsError]. *)
Theorem unknown_field_raises {RT : Runtime}
    (s : Store) (field : string) (value : pyval) :
  unknown_attribute field →
  (data (self s) ≠ [] →
     filter_data field value s = (Raise AttributeError, s) ∧
     calculate_mean field s = (Raise AttributeError, s) ∧
     calculate_median field s = (Raise AttributeError, s)) ∧
  (data (self s) = [] →
     filter_data field value s = (Ok [], s) ∧
     calculate_mean field s = (Raise StatisticsError, s) ∧
     calculate_median field s = (Raise StatisticsError, s)).
Proof.
  intros Hf.
  rewrite filter_data_run, calculate_mean_run, calculate_median_run.
  split.
  - intros Hne. rewrite field_values_unknown by done.
    destruct (data (self s)) as [|item items]; [done|].
    unfold matching. simpl. by rewrite getattr_unknown.
  - intros ->. done.
Qed.

(** *** Filtering on a numeric field *)

(** C2. [filter_data] compares with [==] and coerces nothing: when the
    calories of every record are floats, as they are for records entered
    through [add_data] by the shell, a query given as text, as the shell
    gives it, selects no record at all, whatever number the text spells. *)
Theorem filter_data_text_query_on_floats {RT : Runtime} (s : Store) (query : string) :
  Forall (λ item, ∃ x, calories item = PFloat x) (data (self s)) →
  filter_data "calories" (PStr query) s = (Ok [], s).
Proof.
  intros Hfloats. rewrite filter_data_run. f_equal.
  induction Hfloats as [|item items [x Hx] _ IH]; [done|].
  unfold matching in *. cbn [comprehension_if]. rewrite IH.
  unfold getattr. simpl. by rewrite Hx.
Qed.

(** ** Construction *)

Lemma DataManager_new_instance (w : World) :
  _instance (DataManager_new w).2 = Some (DataManager_new w).1.
Proof. unfold DataManager_new. by destruct (_instance w) eqn:E. Qed.

Lemma DataManager_new_again (w : World) (ref : nat) :
  _instance w = Some ref → DataManager_new w = (ref, w).
Proof. intros E. unfold DataManager_new. by rewrite E. Qed.

Lemma call_instance {A} (ref : nat) (body : Py A) (w w' : World) (r : result A) :
  call ref body w = Some (r, w') → _instance w' = _instance w.
Proof.
  unfold call. destruct (heap w !! ref) as [dm|]; [|done]. simpl.
  destruct (body _) as [r' s]. intros [= _ <-]. done.
Qed.

Lemma steps_instance (w w' : World) (ref : nat) :
  steps w w' → _instance w = Some ref → _instance w' = Some ref.
Proof.
  induction 1 as [w|A w ref' body r w' w'' Hcall _ IH|w w'' _ IH]; intros E.
  - done.
  - apply IH. by rewrite (call_instance _ _ _ _ _ Hcall).
  - apply IH. by rewrite (DataManager_new_again _ _ E).
Qed.

(** C7, as the claim states it, fails: a second construction returns the
    first instance, with the record added through the first reference. *)
Lemma second_construction_shares_records :
  let apple := mkFoodData (PStr "Apple") (PFloat 95) (PFloat 0.5) (PFloat 25) in
  let w0 := mkWorld [] None ∅ in
  let m1 := (DataManager_new w0).1 in
  let w1 := (DataManager_new w0).2 in
  ∃ w2,
    call m1 (add_data (RT := Demo.runtime) (PStr "Apple") (PFloat 95) (PFloat 0.5) (PFloat 25)) w1
      = Some (Ok tt, w2) ∧
    (DataManager_new w2).1 = m1 ∧
    data <$> attrs (DataManager_new w2).2 (DataManager_new w2).1 = Some [apple].
Proof. eexists. split; [reflexivity|]. split; reflexivity. Qed.

(** C7, amended. [DataManager] is a singleton: once it has been constructed,
    every later construction (after any method calls and constructions in
    between) returns the reference of the first one and leaves the world as
    it is, so the instance it gives is the first one with whatever records it
    holds by then. Only a construction in a world without an instance creates
    one, with an empty sequence and the default file name. *)
Theorem DataManager_singleton (w w' : World) :
  steps (DataManager_new w).2 w' →
  DataManager_new w' = ((DataManager_new w).1, w') ∧
  (_instance w = None →
     attrs (DataManager_new w).2 (DataManager_new w).1
       = Some (mkDataManager [] "food_nutrition.csv")).
Proof.
  intros Hsteps. split.
  - apply DataManager_new_again.
    apply (steps_instance _ _ _ Hsteps), DataManager_new_instance.
  - intros E. unfold DataManager_new, attrs. rewrite E. simpl.
    by rewrite lookup_app_r, Nat.sub_diag.
Qed.

(** ** Closed instances of the statements *)

(** The example of the specification, with the query a number: the two
    records with 200 calories, in their order. *)
Example filter_data_number_query :
  filter_data (RT := Demo.runtime) "calories" (PFloat 200) pantry
  = (Ok [rice; bread], pantry).
Proof. reflexivity. Qed.

Lemma filter_data_text_query_on_floats_witness :
  Forall (λ item, ∃ x, calories item = PFloat x) (data (self pantry)) ∧
  filter_data (RT := Demo.runtime) "calories" (PStr "200.0") pantry = (Ok [], pantry).
Proof.
  assert (H : Forall (λ item, ∃ x, calories item = PFloat x) (data (self pantry))).
  { repeat constructor; eexists; reflexivity. }
  split; [exact H|].
  exact (filter_data_text_query_on_floats (RT := Demo.runtime) pantry "200.0" H).
Defined.

Lemma edit_data_frame_witness :
  data (self (edit_data (RT := Demo.runtime) 1
                (PStr "Apple") (PFloat 95) (PFloat 0.5) (PFloat 25) pantry).2)
    = [pear; apple; bread] ∧
  edit_data (RT := Demo.runtime) 3
    (PStr "Apple") (PFloat 95) (PFloat 0.5) (PFloat 25) pantry = (Ok tt, pantry) ∧
  edit_data (RT := Demo.runtime) (-1)
    (PStr "Apple") (PFloat 95) (PFloat 0.5) (PFloat 25) pantry = (Ok tt, pantry).
Proof.
  split; [reflexivity|]. split.
  - apply (edit_data_frame (RT := Demo.runtime) pantry 3). simpl. lia.
  - apply (edit_data_frame (RT := Demo.runtime) pantry (-1)). simpl. lia.
Defined.

Lemma delete_data_shifts_witness :
  S (length (data (self (delete_data (RT := Demo.runtime) 0 pantry).2))) = 3 ∧
  data (self (delete_data (RT := Demo.runtime) 0 pantry).2) !! 0 = Some rice ∧
  delete_data (RT := Demo.runtime) 3 pantry = (Ok tt, pantry).
Proof.
  destruct (delete_data_shifts (RT := Demo.runtime) pantry 0) as [Hin _].
  destruct (delete_data_shifts (RT := Demo.runtime) pantry 3) as [_ Hout].
  destruct Hin as (_ & Hlen & _ & Hge & _); [simpl; lia|].
  split; [exact Hlen|]. split.
  - rewrite (Hge 0); [reflexivity|simpl; lia].
  - apply Hout. simpl. lia.
Defined.

Lemma unknown_field_raises_witness :
  unknown_attribute (RT := Demo.runtime) "unknown" ∧
  filter_data (RT := Demo.runtime) "unknown" (PStr "x") pantry
    = (Raise AttributeError, pantry) ∧
  calculate_mean (RT := Demo.runtime) "unknown" pantry = (Raise AttributeError, pantry) ∧
  calculate_median (RT := Demo.runtime) "unknown" pantry = (Raise AttributeError, pantry).
Proof.
  assert (H : unknown_attribute (RT := Demo.runtime) "unknown").
  { split; [|reflexivity]. intros Hin.
    repeat (apply elem_of_cons in Hin as [Hin|Hin]; [discriminate Hin|]).
    by apply elem_of_nil in Hin. }
  split; [exact H|].
  apply (unknown_field_raises (RT := Demo.runtime) pantry "unknown" (PStr "x") H).
  discriminate.
Defined.

Lemma DataManager_singleton_witness :
  let w0 := mkWorld [] None ∅ in
  let m1 := (DataManager_new w0).1 in
  let w1 := (DataManager_new w0).2 in
  ∃ w2,
    call m1 (add_data (RT := Demo.runtime) (PStr "Apple") (PFloat 95) (PFloat 0.5) (PFloat 25)) w1
      = Some (Ok tt, w2) ∧
    steps w1 w2 ∧
    DataManager_new w2 = (m1, w2).
Proof.
  intros w0 m1 w1.
  set (body := add_data (RT := Demo.runtime) (PStr "Apple") (PFloat 95) (PFloat 0.5) (PFloat 25)).
  pose (w2 := match call m1 body w1 with Some (_, w) => w | None => w1 end).
  exists w2.
  assert (Hcall : call m1 body w1 = Some (Ok tt, w2)) by reflexivity.
  assert (H : steps w1 w2)
    by exact (steps_call w1 m1 body (Ok tt) w2 w2 Hcall (steps_done w2)).
  exact (conj Hcall (conj H (proj1 (DataManager_singleton w0 w2 H)))).
Defined.

(** ** Persistence *)

(** C1, as the claim states it, fails: the quantities the shell enters are
    floats, the file holds their decimal text, and [read_data] gives that
    text back as text. *)
Lemma save_then_load_floats_become_text :
  let s1 := (save_data (RT := Demo.runtime) pantry).2 in
  disk s1 !! "food_nutrition.csv"
    = Some (crlf_lines ["food_item,calories,protein,carbs"; "Pear,100.0,0.5,27.0";
                        "Rice,200.0,4.0,45.0"; "Bread,200.0,8.0,40.0"]) ∧
  read_data s1
    = (Ok tt, mkStore (mkDataManager [pear_loaded; rice_loaded; bread_loaded]
                                     "food_nutrition.csv") (disk s1)) ∧
  data (self (read_data s1).2) ≠ data (self pantry).
Proof. vm_compute. repeat split; try reflexivity. discriminate. Qed.

(** C1, amended. When no cell that [save_data] writes holds a carriage
    return or more than 131072 characters, [save_data] followed by
    [read_data] succeeds and gives a sequence of the same length and order in
    which every field is the text written for it: a string as it is, a float
    as its [repr], [None] as the empty string. So it gives back the very
    sequence that was saved when every field of every record is text, as it
    is after a load. *)
Theorem save_then_load {RT : Runtime} (s : Store) :
  Forall writable_record (data (self s)) →
  let s1 := (save_data s).2 in
  (save_data s).1 = Ok tt ∧
  read_data s1
    = (Ok tt, mkStore (mkDataManager (map as_text (data (self s))) (filename (self s)))
                      (disk s1)) ∧
  length (data (self (read_data s1).2)) = length (data (self s)) ∧
  (Forall text_record (data (self s)) →
     data (self (read_data s1).2) = data (self s)).
Proof.
  intros Hw s1. subst s1. rewrite (LoadFacts.read_data_saved s Hw). cbn [fst snd self data].
  repeat split.
  - apply length_map.
  - intros Ht. induction Ht as [|item items Hitem _ IH]; [done|].
    apply Forall_cons in Hw as [_ Hw]. cbn [map].
    by rewrite (proj2 (LoadFacts.text_record_as_text item Hitem)), IH.
Qed.

(** C3, as the claim states it, fails: a row with two cells, the second one
    no number, loads without any error, its missing fields [None]; and the
    cells of a complete row stay text. *)
Lemma read_data_accepts_short_row :
  read_data short_row_store
  = (Ok tt, mkStore (mkDataManager
                       [pear_loaded; mkFoodData (PStr "Apple") (PStr "abc") PNone PNone]
                       "food_nutrition.csv")
                    (disk short_row_store)).
Proof. vm_compute. reflexivity. Qed.

(** C3, amended. For a file that exists, reads as text, and has the header
    that [save_data] writes as its first row, [read_data] builds a record
    from every later row the csv reader yields that is not empty. When each
    of these rows has at most four cells and the reader reaches the end of
    the file, [read_data] succeeds: the cells of a row go, in order, to
    [food_item], [calories], [protein] and [carbs], each as the text read
    (no field is ever a float, nothing is checked for being a number), and a
    field the row has no cell for is [None]. A row of more than four cells
    makes [read_data] raise [TypeError]. When the reader fails on a later
    row, as it does on a field of more than 131072 characters, and the rows
    before it have at most four cells, [read_data] raises [csv.Error]. In
    both cases the state stays as it is. *)
Theorem read_data_keeps_text (s : Store) (content : text) (body : list (list text))
    (ending : option exn) :
  disk s !! filename (self s) = Some content →
  Csv.reader Csv.parse_reset (Csv.readlines [] (Csv.universal_newlines content))
    = (header :: body, ending) →
  (Forall (λ row, length row ≤ 4) body →
     match ending with
     | None =>
         read_data s =
         (Ok tt, mkStore (mkDataManager (map record_of_row (Csv.nonblank body))
                                        (filename (self s)))
                         (disk s))
     | Some e => e = CsvError ∧ read_data s = (Raise CsvError, s)
     end) ∧
  (Exists (λ row, 4 < length row) body → read_data s = (Raise TypeError, s)) ∧
  (∀ row i x, cell_value row i ≠ PFloat x) ∧
  (∀ row i c, row !! i = Some c → cell_value row i = PStr (str_of c)) ∧
  (∀ row i, length row ≤ i → cell_value row i = PNone).
Proof.
  intros Hfile Hreader.
  destruct (LoadFacts.read_data_header_ending s content body ending Hfile Hreader)
    as [Hshort Hlong].
  repeat split; [exact Hshort|exact Hlong|..].
  - intros row i x. unfold cell_value. by destruct (row !! i).
  - intros row i c Hc. unfold cell_value. by rewrite Hc.
  - intros row i Hi. unfold cell_value. by rewrite lookup_ge_None_2.
Qed.

Lemma save_then_load_witness :
  Forall (writable_record (RT := Demo.runtime)) (data (self pantry_loaded)) ∧
  Forall text_record (data (self pantry_loaded)) ∧
  data (self (read_data (save_data (RT := Demo.runtime) pantry_loaded).2).2)
    = data (self pantry_loaded).
Proof.
  assert (Hw : Forall (writable_record (RT := Demo.runtime)) (data (self pantry_loaded)))
    by (apply (bool_decide_unpack _); by vm_compute).
  assert (Ht : Forall text_record (data (self pantry_loaded)))
    by (apply (bool_decide_unpack _); by vm_compute).
  split; [exact Hw|]. split; [exact Ht|].
  exact (proj2 (proj2 (proj2 (save_then_load (RT := Demo.runtime) pantry_loaded Hw))) Ht).
Defined.

Lemma read_data_keeps_text_witness :
  let body := map (map text_of) [["Pear"; "100.0"; "0.5"; "27.0"]; ["Apple"; "abc"]] in
  disk short_row_store !! filename (self short_row_store) = Some short_row_file ∧
  Csv.reader Csv.parse_reset (Csv.readlines [] (Csv.universal_newlines short_row_file))
    = (header :: body, None) ∧
  Forall (λ row, length row ≤ 4) body ∧
  read_data short_row_store
    = (Ok tt, mkStore (mkDataManager (map record_of_row (Csv.nonblank body))
                                     "food_nutrition.csv")
                      (disk short_row_store)) ∧
  Csv.reader Csv.parse_reset (Csv.readlines [] (Csv.universal_newlines long_field_file))
    = ([header; map text_of ["Pear"; "100.0"; "0.5"; "27.0"]], Some CsvError) ∧
  read_data long_field_store = (Raise CsvError, long_field_store).
Proof.
  intros body.
  assert (Hfile : disk short_row_store !! filename (self short_row_store)
                  = Some short_row_file) by (by vm_compute).
  assert (Hreader : Csv.reader Csv.parse_reset
                      (Csv.readlines [] (Csv.universal_newlines short_row_file))
                    = (header :: body, None)) by (by vm_compute).
  assert (Hshort : Forall (λ row, length row ≤ 4) body)
    by (repeat constructor; simpl; lia).
  split; [exact Hfile|]. split; [exact Hreader|]. split; [exact Hshort|].
  split; [exact (proj1 (read_data_keeps_text short_row_store short_row_file body None
                          Hfile Hreader) Hshort)|].
  set (pear_row := map text_of ["Pear"; "100.0"; "0.5"; "27.0"]).
  assert (Hfile' : disk long_field_store !! filename (self long_field_store)
                   = Some long_field_file) by apply lookup_singleton_eq.
  assert (Hreader' : Csv.reader Csv.parse_reset
                       (Csv.readlines [] (Csv.universal_newlines long_field_file))
                     = ([header; pear_row], Some CsvError)).
  { apply (CsvFacts.reader_long_field [header; pear_row] long_field (text_of ",1,2,3")).
    - apply (bool_decide_unpack _). by vm_compute.
    - by apply Forall_replicate.
    - unfold long_field, Csv.field_limit. rewrite length_replicate, Z2Nat.id; lia. }
  split; [exact Hreader'|].
  assert (Hshort' : Forall (λ row, length row ≤ 4) [pear_row])
    by (repeat constructor; simpl; lia).
  exact (proj2 (proj1 (read_data_keeps_text long_field_store long_field_file [pear_row]
                         (Some CsvError) Hfile' Hreader') Hshort')).
Defined.

(** * More properties of the store *)

Section MoreStore.
Context {RT : Runtime}.

Lemma getattr_attribute (name : string) (proj : FoodData → pyval) (item : FoodData) :
  (name, proj) ∈ attributes → getattr item name = Ok (Plain (proj item)).
Proof.
  unfold attributes. intros Hin.
  repeat (apply elem_of_cons in Hin as [[= -> ->]|Hin]; [reflexivity|]).
  by apply elem_of_nil in Hin.
Qed.

Lemma matching_attribute (name : string) (proj : FoodData → pyval)
    (value : pyval) (items : list FoodData) :
  (name, proj) ∈ attributes →
  matching name value items = Ok (List.filter (λ item, py_eq (proj item) value) items).
Proof.
  intros Hin. unfold matching.
  induction items as [|item items IH]; [done|].
  cbn [comprehension_if List.filter]. rewrite IH.
  rewrite (getattr_attribute _ _ _ Hin). simpl.
  by destruct (py_eq (proj item) value).
Qed.

(** X1. For each of the four field names (food_item, calories, protein,
    carbs), filter_data returns, without raising and without changing the
    store or the file, exactly the records whose field equals the given value
    under Python's ==, in their stored order. *)
Theorem filter_data_selects (s : Store) (name : string) (proj : FoodData → pyval)
    (value : pyval) :
  (name, proj) ∈ attributes →
  filter_data name value s
  = (Ok (List.filter (λ item, py_eq (proj item) value) (data (self s))), s).
Proof. intros Hin. by rewrite filter_data_run, (matching_attribute _ _ _ _ Hin). Qed.

Lemma field_values_convert (name : string) (proj : FoodData → pyval)
    (items : list FoodData) (xs : list float) :
  (name, proj) ∈ attributes →
  Forall2 (λ item x, py_float (Plain (proj item)) = Ok x) items xs →
  field_values name items = Ok xs.
Proof.
  intros Hin Hall. unfold field_values.
  induction Hall as [|item x items xs Hx _ IH]; [done|].
  cbn [comprehension]. rewrite IH, (getattr_attribute _ _ _ Hin).
  cbn [mbind result_bind]. by rewrite Hx.
Qed.

Lemma field_values_first_failure (name : string) (proj : FoodData → pyval)
    (before after : list FoodData) (item : FoodData) (e : exn) :
  (name, proj) ∈ attributes →
  Forall (λ i, ∃ x, py_float (Plain (proj i)) = Ok x) before →
  py_float (Plain (proj item)) = Raise e →
  field_values name (before ++ item :: after) = Raise e.
Proof.
  intros Hin Hbefore Hitem. unfold field_values.
  induction Hbefore as [|i before [x Hx] _ IH]; cbn [app comprehension].
  - rewrite (getattr_attribute _ _ _ Hin). cbn [mbind result_bind]. by rewrite Hitem.
  - rewrite IH, (getattr_attribute _ _ _ Hin). cbn [mbind result_bind]. by rewrite Hx.
Qed.

(** X2. On a non-empty store in which every record's value of the chosen field
    (one of the four) converts under float(), calculate_mean and
    calculate_median return statistics.mean and statistics.median of the
    converted values taken in record order, and leave the store unchanged. *)
Theorem statistics_of_converted (s : Store) (name : string) (proj : FoodData → pyval)
    (xs : list float) :
  (name, proj) ∈ attributes →
  data (self s) ≠ [] →
  Forall2 (λ item x, py_float (Plain (proj item)) = Ok x) (data (self s)) xs →
  calculate_mean name s = (Ok (mean_of xs), s) ∧
  calculate_median name s = (Ok (median_of xs), s).
Proof.
  intros Hin Hne Hall.
  rewrite calculate_mean_run, calculate_median_run.
  rewrite (field_values_convert _ _ _ _ Hin Hall).
  destruct Hall; [done|]. done.
Qed.

(** X3. If float() raises on some record's value of the chosen field and
    converts the value of every earlier record, calculate_mean and
    calculate_median both raise that exception (ValueError for text that is no
    number, TypeError for None) and leave the store unchanged. *)
Theorem statistics_first_failure (s : Store) (name : string) (proj : FoodData → pyval)
    (before after : list FoodData) (item : FoodData) (e : exn) :
  (name, proj) ∈ attributes →
  data (self s) = before ++ item :: after →
  Forall (λ i, ∃ x, py_float (Plain (proj i)) = Ok x) before →
  py_float (Plain (proj item)) = Raise e →
  calculate_mean name s = (Raise e, s) ∧ calculate_median name s = (Raise e, s).
Proof.
  intros Hin Hdata Hbefore Hitem.
  rewrite calculate_mean_run, calculate_median_run, Hdata.
  by rewrite (field_values_first_failure _ _ _ _ _ _ Hin Hbefore Hitem).
Qed.

Lemma save_data_in_sync (s : Store) : in_sync s → save_data s = (Ok tt, s).
Proof.
  unfold in_sync. intros Hs. rewrite save_data_run, insert_id by done.
  by destruct s.
Qed.

Lemma in_sync_saved (s : Store) : in_sync (save_data s).2.
Proof. unfold in_sync. rewrite save_data_run. simpl. apply lookup_insert_eq. Qed.

(** X4. After save_data, after add_data, and after edit_data or delete_data
    with an index in range, the file the store names holds exactly the table
    of the records in memory; and save_data on a store that is already in that
    state changes nothing. *)
Theorem mutation_leaves_in_sync (s : Store) (i : Z) (n c p b : pyval) :
  in_sync (save_data s).2 ∧
  in_sync (add_data n c p b s).2 ∧
  ((0 ≤ i < Z.of_nat (length (data (self s))))%Z →
     in_sync (edit_data i n c p b s).2 ∧ in_sync (delete_data i s).2) ∧
  (∀ s', in_sync s' → save_data s' = (Ok tt, s')).
Proof.
  split; [apply in_sync_saved|]. split; [rewrite add_data_run; apply in_sync_saved|].
  split; [|apply save_data_in_sync].
  intros Hi. rewrite edit_data_in_range, delete_data_in_range by done.
  split; apply in_sync_saved.
Qed.

(** X5. Adding a record and then deleting the index equal to the previous
    length succeeds and restores the previous record list; the file then holds
    the table of that list. *)
Theorem add_then_delete_last (s : Store) (n c p b : pyval) :
  let s1 := (add_data n c p b s).2 in
  let s2 := (delete_data (Z.of_nat (length (data (self s)))) s1).2 in
  (delete_data (Z.of_nat (length (data (self s)))) s1).1 = Ok tt ∧
  data (self s2) = data (self s) ∧
  filename (self s2) = filename (self s) ∧
  disk s2 = <[filename (self s) := table (data (self s))]> (disk s).
Proof.
  intros s1 s2. subst s1 s2. rewrite add_data_run, save_data_run. cbn [fst snd].
  rewrite delete_data_in_range, save_data_run.
  - cbn [fst snd self data filename disk].
    rewrite Nat2Z.id, (delete_middle _ []), app_nil_r, insert_insert_eq. done.
  - cbn [self data]. rewrite length_app. simpl. lia.
Qed.

(** X6. Two edits of the same index in a row have the result and the effect of
    the second alone, whether the index is in range or not. *)
Theorem edit_data_twice (s : Store) (i : Z) (n1 c1 p1 b1 n2 c2 p2 b2 : pyval) :
  edit_data i n2 c2 p2 b2 (edit_data i n1 c1 p1 b1 s).2 = edit_data i n2 c2 p2 b2 s.
Proof.
  destruct (decide (0 ≤ i < Z.of_nat (length (data (self s))))%Z) as [Hi|Hi].
  - rewrite (edit_data_in_range s), save_data_run by done. cbn [fst snd].
    rewrite !edit_data_in_range, !save_data_run;
      cbn [self data filename disk]; rewrite ?length_insert; [|done..].
    by rewrite list_insert_insert_eq, insert_insert_eq.
  - by rewrite (edit_data_out_of_range s i n1) by done.
Qed.

(** X7. After add_data with a text name, filter_data on food_item with that
    name returns the earlier records of that name, in order, followed by the
    new record as the last one. *)
Theorem add_then_filter_by_name (s : Store) (name : string) (c p b : pyval) :
  let s1 := (add_data (PStr name) c p b s).2 in
  filter_data "food_item" (PStr name) s1
  = (Ok (List.filter (λ item, py_eq (food_item item) (PStr name)) (data (self s))
         ++ [mkFoodData (PStr name) c p b]), s1).
Proof.
  intros s1. subst s1.
  rewrite filter_data_run, (matching_attribute "food_item" food_item)
    by (unfold attributes; rewrite !elem_of_cons; tauto).
  rewrite add_data_run, save_data_run. cbn [fst snd self data].
  rewrite List.filter_app. cbn [List.filter food_item py_eq].
  by rewrite String.eqb_refl.
Qed.

Lemma read_data_missing_file (s : Store) :
  disk s !! filename (self s) = None → read_data s = (Raise FileNotFoundError, s).
Proof.
  intros Hfile. unfold read_data, read_file, mbind, Py_bind. by rewrite Hfile.
Qed.


End MoreStore.

(** ** Closed instances of the store's further properties *)

Lemma filter_data_selects_witness :
  ("calories", calories) ∈ attributes ∧
  filter_data (RT := Demo.runtime) "calories" (PFloat 200) pantry
  = (Ok [rice; bread], pantry).
Proof.
  assert (H : ("calories", calories) ∈ attributes)
    by (unfold attributes; rewrite !elem_of_cons; tauto).
  split; [exact H|].
  exact (filter_data_selects (RT := Demo.runtime) pantry "calories" calories (PFloat 200) H).
Defined.

Lemma statistics_of_converted_witness :
  calculate_mean (RT := Demo.runtime) "carbs" pantry_loaded
  = (Ok (Demo.mean_of [27%float; 45%float; 40%float]), pantry_loaded) ∧
  calculate_median (RT := Demo.runtime) "carbs" pantry_loaded = (Ok 40%float, pantry_loaded).
Proof.
  assert (Hfield : ("carbs", carbs) ∈ attributes)
    by (unfold attributes; rewrite !elem_of_cons; tauto).
  assert (Hdata : data (self pantry_loaded) ≠ []) by discriminate.
  assert (Hall : Forall2 (λ item x, py_float (RT := Demo.runtime) (Plain (carbs item)) = Ok x)
                   (data (self pantry_loaded)) [27%float; 45%float; 40%float])
    by (repeat (constructor; [by vm_compute|]); constructor).
  exact (statistics_of_converted (RT := Demo.runtime) pantry_loaded "carbs" carbs
           [27%float; 45%float; 40%float] Hfield Hdata Hall).
Defined.

Lemma statistics_first_failure_witness :
  let apple_abc := mkFoodData (PStr "Apple") (PStr "abc") PNone PNone in
  let s := mkStore (mkDataManager [pear_loaded; apple_abc] "food_nutrition.csv") ∅ in
  py_float (RT := Demo.runtime) (Plain (calories apple_abc)) = Raise ValueError ∧
  calculate_mean (RT := Demo.runtime) "calories" s = (Raise ValueError, s) ∧
  calculate_median (RT := Demo.runtime) "calories" s = (Raise ValueError, s).
Proof.
  intros apple_abc s.
  assert (Hfield : ("calories", calories) ∈ attributes)
    by (unfold attributes; rewrite !elem_of_cons; tauto).
  assert (Hbefore : Forall (λ i, ∃ x, py_float (RT := Demo.runtime) (Plain (calories i)) = Ok x)
                      [pear_loaded])
    by (repeat constructor; by exists 100%float).
  assert (Hitem : py_float (RT := Demo.runtime) (Plain (calories apple_abc)) = Raise ValueError)
    by (by vm_compute).
  split; [exact Hitem|].
  exact (statistics_first_failure (RT := Demo.runtime) s "calories" calories
           [pear_loaded] [] apple_abc ValueError Hfield eq_refl Hbefore Hitem).
Defined.

(** * Properties of the shell *)

Module ApplicationFacts.
Import Application.

Section Facts.
Context {RT : Runtime} {CS : Console}.

Lemma print_lines_run (lines : list string) (t : Session) :
  print_lines lines t = (Value tt, wrote (map Print lines) t).
Proof.
  revert t. induction lines as [|line lines IH]; intros [dm i o].
  - unfold wrote. simpl. by rewrite app_nil_r.
  - cbn [print_lines]. unfold mbind, Sh_bind, print. cbn [data_manager stdin stdout].
    rewrite IH. unfold wrote. simpl. by rewrite <- app_assoc.
Qed.

Lemma print_records_run (items : list FoodData) (t : Session) :
  print_records items t = (Value tt, wrote (map (λ item, Print (record_line item)) items) t).
Proof.
  revert t. induction items as [|item items IH]; intros [dm i o].
  - unfold wrote. simpl. by rewrite app_nil_r.
  - cbn [print_records]. unfold mbind, Sh_bind, print. cbn [data_manager stdin stdout].
    rewrite IH. unfold wrote. simpl. by rewrite <- app_assoc.
Qed.

(** A turn, once its choice has been read. *)
Lemma turn_choice (t : Session) (choice : string) (rest : list string) :
  stdin t = choice :: rest →
  turn t = act choice (mkSession (data_manager t) rest
                         (stdout t ++ map Print menu ++ [Prompt "Enter your choice: "])).
Proof.
  intros Hin. unfold turn, display_menu, mbind, Sh_bind.
  rewrite print_lines_run. unfold input, wrote. cbn [data_manager stdin stdout].
  rewrite Hin. by rewrite <- app_assoc.
Qed.

Lemma turn_end_of_input (t : Session) :
  stdin t = [] →
  turn t = (EOFError, mkSession (data_manager t) []
                        (stdout t ++ map Print menu ++ [Prompt "Enter your choice: "])).
Proof.
  intros Hin. unfold turn, display_menu, mbind, Sh_bind.
  rewrite print_lines_run. unfold input, wrote. cbn [data_manager stdin stdout].
  rewrite Hin. by rewrite <- app_assoc.
Qed.

(** *** The input is only ever consumed *)

Lemma tame_ret {A} (a : A) : tame (mret a).
Proof. intros t. done. Qed.

Lemma tame_raise {A} (e : exn) : tame (raise (A := A) e).
Proof. intros t. done. Qed.

Lemma tame_print (line : string) : tame (print line).
Proof. intros t. done. Qed.

Lemma tame_input (prompt : string) : tame (input prompt).
Proof. intros t. unfold input. destruct (stdin t); simpl; [done|by apply suffix_cons_r]. Qed.

Lemma tame_method {A} (m : Py A) : tame (method m).
Proof. intros t. unfold method. by destruct (m _). Qed.

Lemma tame_bind {A B} (m : Sh A) (k : A → Sh B) :
  tame m → (∀ a, tame (k a)) → tame (m ≫= k).
Proof.
  intros Hm Hk t. unfold mbind, Sh_bind. specialize (Hm t).
  destruct (m t) as [[a|e|] t1]; [|done..].
  specialize (Hk a t1). simpl in *. by etrans.
Qed.

Lemma tame_float_input (prompt : string) : tame (float_input prompt).
Proof.
  apply tame_bind; [apply tame_input|]. intros line.
  destruct (float_of_str line); [apply tame_ret|apply tame_raise].
Qed.

Lemma tame_int_input (prompt : string) : tame (int_input prompt).
Proof.
  apply tame_bind; [apply tame_input|]. intros line.
  destruct (int_of_str line); [apply tame_ret|apply tame_raise].
Qed.

Lemma tame_print_records (items : list FoodData) : tame (print_records items).
Proof. intros t. by rewrite print_records_run. Qed.

Lemma tame_print_lines (lines : list string) : tame (print_lines lines).
Proof. intros t. by rewrite print_lines_run. Qed.

Create HintDb tame.
Hint Resolve tame_ret tame_raise tame_print tame_input tame_method
  tame_float_input tame_int_input tame_print_records tame_print_lines : tame.

Ltac tame := repeat (apply tame_bind; intros); try case_match; auto with tame.

Lemma tame_act (choice : string) : tame (act choice).
Proof.
  unfold act, read_data_printing, print_data.
  repeat (destruct (String.eqb choice _)); tame.
Qed.

(** A turn that goes on has read at least one line. *)
Lemma turn_consumes (t t' : Session) (b : bool) :
  turn t = (Value b, t') → length (stdin t') < length (stdin t).
Proof.
  destruct (stdin t) as [|choice rest] eqn:Hin.
  - by rewrite (turn_end_of_input t Hin).
  - rewrite (turn_choice t choice rest Hin). intros Hact.
    match type of Hact with act _ ?t0 = _ =>
      pose proof (tame_act choice t0) as Hle end.
    rewrite Hact in Hle. apply suffix_length in Hle. simpl in *. lia.
Qed.

(** X9. On a finite input the loop of run stops: with n lines left to read it
    ends within n+1 turns (by quitting, by an uncaught exception, or by
    EOFError at the end of the input), and allowing more turns does not change
    the outcome. *)
Theorem run_ends (fuel : nat) (t : Session) :
  length (stdin t) < fuel →
  (run fuel t).1 ≠ OutOfFuel ∧ ∀ more, run (fuel + more) t = run fuel t.
Proof.
  revert t. induction fuel as [|fuel IH]; intros t Hlen; [lia|].
  cbn [run Nat.add].
  destruct (turn t) as [[[|]|e|] t'] eqn:Hturn; [|done..].
  apply IH. apply turn_consumes in Hturn. lia.
Qed.

(** *** What a turn does to the store *)

Lemma preserves_ret {A} P (a : A) : preserves P (mret a).
Proof. by intros t. Qed.

Lemma preserves_raise {A} P (e : exn) : preserves P (raise (A := A) e).
Proof. by intros t. Qed.

Lemma preserves_print P (line : string) : preserves P (print line).
Proof. by intros t. Qed.

Lemma preserves_input P (prompt : string) : preserves P (input prompt).
Proof. intros t. unfold input. by destruct (stdin t). Qed.

Lemma preserves_method {A} (P : Store → Prop) (m : Py A) :
  (∀ s, P s → P (m s).2) → preserves P (method m).
Proof. intros Hm t HP. unfold method. specialize (Hm _ HP). by destruct (m _). Qed.

Lemma preserves_bind {A B} P (m : Sh A) (k : A → Sh B) :
  preserves P m → (∀ a, preserves P (k a)) → preserves P (m ≫= k).
Proof.
  intros Hm Hk t HP. unfold mbind, Sh_bind. specialize (Hm t HP).
  destruct (m t) as [[a|e|] t1]; [|done..]. by apply Hk.
Qed.

Lemma preserves_print_records P (items : list FoodData) :
  preserves P (print_records items).
Proof. intros t. by rewrite print_records_run. Qed.

Lemma preserves_print_lines P (lines : list string) : preserves P (print_lines lines).
Proof. intros t. by rewrite print_lines_run. Qed.

Lemma preserves_float_input P (prompt : string) : preserves P (float_input prompt).
Proof.
  apply preserves_bind; [apply preserves_input|]. intros line.
  destruct (float_of_str line); [apply preserves_ret|apply preserves_raise].
Qed.

Lemma preserves_int_input P (prompt : string) : preserves P (int_input prompt).
Proof.
  apply preserves_bind; [apply preserves_input|]. intros line.
  destruct (int_of_str line); [apply preserves_ret|apply preserves_raise].
Qed.

Lemma preserves_get_data P : preserves P (method get_data).
Proof. by apply preserves_method. Qed.

Lemma preserves_analytics P :
  (∀ field, preserves P (method (calculate_mean field))) ∧
  (∀ field, preserves P (method (calculate_median field))) ∧
  (∀ field value, preserves P (method (filter_data field value))).
Proof.
  repeat split; intros; apply preserves_method; intros s HP.
  - by rewrite calculate_mean_run.
  - by rewrite calculate_median_run.
  - by rewrite filter_data_run.
Qed.

Create HintDb preserves.
Hint Resolve preserves_ret preserves_raise preserves_print preserves_input
  preserves_print_records preserves_print_lines preserves_float_input
  preserves_int_input preserves_get_data : preserves.
Hint Extern 1 (preserves _ (method (calculate_mean _))) =>
  apply preserves_analytics : preserves.
Hint Extern 1 (preserves _ (method (calculate_median _))) =>
  apply preserves_analytics : preserves.
Hint Extern 1 (preserves _ (method (filter_data _ _))) =>
  apply preserves_analytics : preserves.

Ltac preserves :=
  repeat (apply preserves_bind; intros); try case_match; auto with preserves.

Lemma preserves_turn P :
  (∀ choice, preserves P (act choice)) → preserves P turn.
Proof. intros Hact. unfold turn, display_menu. preserves. Qed.

Lemma not_elem_of_eqb (choice c : string) (l : list string) :
  choice ∉ l → c ∈ l → String.eqb choice c = false.
Proof. intros Hc Hin. apply String.eqb_neq. by intros ->. Qed.

Lemma act_keeps_store (choice : string) (t : Session) :
  choice ∉ ["1"; "2"; "3"; "4"] →
  data_manager (act choice t).2 = data_manager t.
Proof.
  intros Hchoice.
  assert (Hact : preserves (eq (data_manager t)) (act choice)).
  { unfold act.
    rewrite !(not_elem_of_eqb choice _ _ Hchoice)
      by (rewrite !elem_of_cons; tauto).
    repeat (destruct (String.eqb choice _)); preserves. }
  symmetry. by apply Hact.
Qed.

(** X10. A turn whose choice is none of 1, 2, 3, 4 (analysis, filter, quit, an
    invalid choice) or that meets the end of the input leaves the records, the
    file name and the files exactly as they were, however it ends. *)
Theorem turn_keeps_store (t : Session) :
  (∀ choice, head (stdin t) = Some choice → choice ∉ ["1"; "2"; "3"; "4"]) →
  data_manager (turn t).2 = data_manager t.
Proof.
  intros Hchoice. destruct (stdin t) as [|choice rest] eqn:Hin.
  - by rewrite (turn_end_of_input t Hin).
  - rewrite (turn_choice t choice rest Hin).
    by rewrite act_keeps_store by (by apply Hchoice).
Qed.

Lemma add_data_entered (s : Store) (name : string) (x y z : float) :
  all_entered s → all_entered (add_data (PStr name) (PFloat x) (PFloat y) (PFloat z) s).2.
Proof.
  unfold all_entered. intros Hs. rewrite add_data_run, save_data_run. simpl.
  apply Forall_app. split; [done|]. repeat constructor. by exists name, x, y, z.
Qed.

Lemma edit_data_entered (s : Store) (i : Z) (name : string) (x y z : float) :
  all_entered s → all_entered (edit_data i (PStr name) (PFloat x) (PFloat y) (PFloat z) s).2.
Proof.
  unfold all_entered. intros Hs.
  destruct (decide (0 ≤ i < Z.of_nat (length (data (self s))))%Z) as [Hi|Hi].
  - rewrite edit_data_in_range, save_data_run by done. simpl.
    apply Forall_insert; [done|]. by exists name, x, y, z.
  - by rewrite edit_data_out_of_range.
Qed.

Lemma delete_data_entered (s : Store) (i : Z) :
  all_entered s → all_entered (delete_data i s).2.
Proof.
  unfold all_entered. intros Hs.
  destruct (decide (0 ≤ i < Z.of_nat (length (data (self s))))%Z) as [Hi|Hi].
  - rewrite delete_data_in_range, save_data_run by done. simpl.
    by apply Forall_delete.
  - by rewrite delete_data_out_of_range.
Qed.

(** X11. As long as choice 1 (load) is not taken, every turn keeps the
    invariant that each record has a text name and three float quantities: the
    shell's add and edit only ever store what float() made of the typed
    lines. *)
Theorem turn_keeps_entered (t : Session) :
  head (stdin t) ≠ Some "1" →
  all_entered (data_manager t) → all_entered (data_manager (turn t).2).
Proof.
  intros Hchoice. destruct (stdin t) as [|choice rest] eqn:Hin.
  - by rewrite (turn_end_of_input t Hin).
  - rewrite (turn_choice t choice rest Hin). intros Hs.
    assert (Hact : preserves all_entered (act choice)); [|by apply Hact].
    unfold act. rewrite (proj2 (String.eqb_neq choice "1")) by naive_solver.
    repeat (destruct (String.eqb choice _)); preserves;
      apply preserves_method; intros s;
      auto using add_data_entered, edit_data_entered, delete_data_entered.
Qed.

(** *** Single turns *)

Ltac shell :=
  repeat progress
    (unfold mbind, mret, Sh_bind, Sh_ret, input, int_input, float_input, print,
       method, raise;
     cbn [data_manager stdin stdout]).

Ltac told :=
  shell; unfold asked, wrote; cbn [data_manager stdin stdout map app];
  rewrite <- ?app_assoc; reflexivity.


(** X12. Choice 7 prints the menu, the prompt and the goodbye line, and run
    returns at once, leaving the store and the rest of the input untouched. *)
Theorem choice_7_returns (fuel : nat) (t : Session) (rest : list string) :
  stdin t = "7" :: rest →
  run (S fuel) t
  = (Returned, mkSession (data_manager t) rest
                 (stdout t ++ asked ++ [Print "Exiting the application. Goodbye!"])).
Proof.
  intros Hin. cbn [run]. rewrite (turn_choice t _ _ Hin).
  unfold act. cbn [String.eqb Ascii.eqb Bool.eqb]. shell.
  told.
Qed.

(** X13. A choice that is none of 1 to 7 prints 'Invalid choice. Please try
    again.', changes nothing, reads nothing more, and the loop goes on to the
    next turn. *)
Theorem invalid_choice_goes_on (t : Session) (choice : string) (rest : list string) :
  stdin t = choice :: rest →
  choice ∉ ["1"; "2"; "3"; "4"; "5"; "6"; "7"] →
  turn t = (Value true,
            mkSession (data_manager t) rest
              (stdout t ++ asked ++ [Print "Invalid choice. Please try again."])).
Proof.
  intros Hin Hchoice. rewrite (turn_choice t _ _ Hin). unfold act.
  rewrite !(not_elem_of_eqb choice _ _ Hchoice) by (rewrite !elem_of_cons; tauto).
  shell. unfold asked. by rewrite <- !app_assoc.
Qed.

(** X14. Choice 2 followed by a name and three lines that float() accepts
    appends the record (the name as text, the quantities as floats) through
    add_data, writes the four prompts and 'Data added successfully.', and the
    loop goes on. *)
Theorem choice_2_adds (t : Session) (name c p b : string) (rest : list string)
    (x y z : float) :
  stdin t = "2" :: name :: c :: p :: b :: rest →
  float_of_str c = Some x → float_of_str p = Some y → float_of_str b = Some z →
  turn t = (Value true,
            mkSession (add_data (PStr name) (PFloat x) (PFloat y) (PFloat z)
                                (data_manager t)).2
              rest
              (stdout t ++ asked ++
               [Prompt "Enter Food Item: "; Prompt "Enter Calories: ";
                Prompt "Enter Protein: "; Prompt "Enter Carbs: ";
                Print "Data added successfully."])).
Proof.
  intros Hin Hc Hp Hb. rewrite (turn_choice t _ _ Hin).
  unfold act. cbn [String.eqb Ascii.eqb Bool.eqb]. shell.
  rewrite Hc. shell. rewrite Hp. shell. rewrite Hb. shell.
  rewrite add_data_run, save_data_run. cbn [fst snd data_manager stdin stdout].
  told.
Qed.

(** X15. Choice 4 with an index that int() accepts but that is out of range
    prints 'Data deleted successfully.' although the store and the file are
    left exactly as they were. *)
Theorem choice_4_out_of_range (t : Session) (line : string) (i : Z) (rest : list string) :
  stdin t = "4" :: line :: rest →
  int_of_str line = Some i →
  ¬ (0 ≤ i < Z.of_nat (length (data (self (data_manager t)))))%Z →
  turn t = (Value true,
            mkSession (data_manager t) rest
              (stdout t ++ asked ++
               [Prompt "Enter the index to delete: "; Print "Data deleted successfully."])).
Proof.
  intros Hin Hi Hrange. rewrite (turn_choice t _ _ Hin).
  unfold act. cbn [String.eqb Ascii.eqb Bool.eqb]. shell. rewrite Hi. shell.
  rewrite delete_data_out_of_range by done.
  told.
Qed.

(** X16. Choice 3 with an index that int() accepts but that is out of range,
    followed by a name and three numbers, prints 'Data edited successfully.'
    although the store and the file are left exactly as they were. *)
Theorem choice_3_out_of_range (t : Session) (line name c p b : string) (i : Z)
    (x y z : float) (rest : list string) :
  stdin t = "3" :: line :: name :: c :: p :: b :: rest →
  int_of_str line = Some i →
  float_of_str c = Some x → float_of_str p = Some y → float_of_str b = Some z →
  ¬ (0 ≤ i < Z.of_nat (length (data (self (data_manager t)))))%Z →
  turn t = (Value true,
            mkSession (data_manager t) rest
              (stdout t ++ asked ++
               [Prompt "Enter the index to edit: "; Prompt "Enter Food Item: ";
                Prompt "Enter Calories: "; Prompt "Enter Protein: ";
                Prompt "Enter Carbs: "; Print "Data edited successfully."])).
Proof.
  intros Hin Hi Hc Hp Hb Hrange. rewrite (turn_choice t _ _ Hin).
  unfold act. cbn [String.eqb Ascii.eqb Bool.eqb]. shell. rewrite Hi. shell.
  rewrite Hc. shell. rewrite Hp. shell. rewrite Hb. shell.
  rewrite edit_data_out_of_range by done.
  told.
Qed.

(** X17. Choice 5 on a store without records ends the whole run with an
    uncaught StatisticsError, whatever field is named: nothing is printed
    after the field prompt and the store is unchanged. *)
Theorem choice_5_on_empty_store (fuel : nat) (t : Session) (field : string)
    (rest : list string) :
  stdin t = "5" :: field :: rest →
  data (self (data_manager t)) = [] →
  run (S fuel) t
  = (Raised StatisticsError,
     mkSession (data_manager t) rest
       (stdout t ++ asked ++
        [Prompt "Enter the field for analysis (calories, protein, carbs): "])).
Proof.
  intros Hin Hdata. cbn [run]. rewrite (turn_choice t _ _ Hin).
  unfold act. cbn [String.eqb Ascii.eqb Bool.eqb]. shell.
  rewrite calculate_mean_run, Hdata. cbn.
  told.
Qed.

(** X18. Choice 5 with one of the four fields, on a non-empty store whose
    values of that field all convert under float(), prints 'Mean the field: '
    and 'Median the field: ' followed by the mean and the median of the
    converted values, leaves the store unchanged, and the loop goes on. *)
Theorem choice_5_prints_statistics (t : Session) (field : string)
    (proj : FoodData → pyval) (xs : list float) (rest : list string) :
  stdin t = "5" :: field :: rest →
  (field, proj) ∈ attributes →
  data (self (data_manager t)) ≠ [] →
  Forall2 (λ item x, py_float (Plain (proj item)) = Ok x)
          (data (self (data_manager t))) xs →
  turn t = (Value true,
            mkSession (data_manager t) rest
              (stdout t ++ asked ++
               [Prompt "Enter the field for analysis (calories, protein, carbs): ";
                Print ("Mean " +:+ field +:+ ": " +:+ float_repr (mean_of xs));
                Print ("Median " +:+ field +:+ ": " +:+ float_repr (median_of xs))])).
Proof.
  intros Hin Hfield Hne Hxs. rewrite (turn_choice t _ _ Hin).
  assert (Hmean : calculate_mean field (data_manager t)
                  = (Ok (mean_of xs), data_manager t)).
  { rewrite calculate_mean_run, (field_values_convert _ _ _ _ Hfield Hxs).
    by destruct Hxs. }
  assert (Hmedian : calculate_median field (data_manager t)
                    = (Ok (median_of xs), data_manager t)).
  { rewrite calculate_median_run, (field_values_convert _ _ _ _ Hfield Hxs).
    by destruct Hxs. }
  unfold act. cbn [String.eqb Ascii.eqb Bool.eqb]. shell.
  rewrite Hmean. shell. rewrite Hmedian. shell.
  told.
Qed.

(** X19. Choice 6 with one of the four fields prints 'Filtered Data:' and then
    one line 'food_item, calories, protein, carbs' for each record whose field
    equals the typed line as a string, in stored order; the store is unchanged
    and the loop goes on. *)
Theorem choice_6_lists_matches (t : Session) (field value : string)
    (proj : FoodData → pyval) (rest : list string) :
  stdin t = "6" :: field :: value :: rest →
  (field, proj) ∈ attributes →
  turn t = (Value true,
            mkSession (data_manager t) rest
              (stdout t ++ asked ++
               [Prompt "Enter the field for filtering (food_item, calories, protein, carbs): ";
                Prompt ("Enter the value to filter by " +:+ field +:+ ": ");
                Print "Filtered Data:"] ++
               map (λ item, Print (record_line item))
                   (List.filter (λ item, py_eq (proj item) (PStr value))
                                (data (self (data_manager t)))))).
Proof.
  intros Hin Hfield. rewrite (turn_choice t _ _ Hin).
  unfold act. cbn [String.eqb Ascii.eqb Bool.eqb]. shell.
  rewrite filter_data_run, (matching_attribute _ _ _ _ Hfield). shell.
  rewrite print_records_run. told.
Qed.

Lemma filter_text_on_floats (proj : FoodData → pyval) (value : string)
    (items : list FoodData) :
  Forall (λ item, ∃ x, proj item = PFloat x) items →
  List.filter (λ item, py_eq (proj item) (PStr value)) items = [].
Proof.
  induction 1 as [|item items [x Hx] _ IH]; [done|].
  cbn [List.filter]. by rewrite Hx, IH.
Qed.

(** X20. Choice 6 on a field whose values are all floats (as the shell's add
    and edit store the quantities) prints 'Filtered Data:' and no record at
    all, whatever value is typed, because the typed line is compared as a
    string. *)
Theorem choice_6_finds_no_number (t : Session) (field value : string)
    (proj : FoodData → pyval) (rest : list string) :
  stdin t = "6" :: field :: value :: rest →
  (field, proj) ∈ attributes →
  Forall (λ item, ∃ x, proj item = PFloat x) (data (self (data_manager t))) →
  turn t = (Value true,
            mkSession (data_manager t) rest
              (stdout t ++ asked ++
               [Prompt "Enter the field for filtering (food_item, calories, protein, carbs): ";
                Prompt ("Enter the value to filter by " +:+ field +:+ ": ");
                Print "Filtered Data:"])).
Proof.
  intros Hin Hfield Hfloats. rewrite (turn_choice t _ _ Hin).
  unfold act. cbn [String.eqb Ascii.eqb Bool.eqb]. shell.
  rewrite filter_data_run, (matching_attribute _ _ _ _ Hfield).
  rewrite (filter_text_on_floats _ _ _ Hfloats). told.
Qed.

(** X21. Choice 1 when the file does not exist ends the whole run with an
    uncaught FileNotFoundError: the store is unchanged and nothing is printed
    after the choice prompt. *)
Theorem choice_1_without_file (fuel : nat) (t : Session) (rest : list string) :
  stdin t = "1" :: rest →
  disk (data_manager t) !! filename (self (data_manager t)) = None →
  run (S fuel) t = (Raised FileNotFoundError, mkSession (data_manager t) rest (stdout t ++ asked)).
Proof.
  intros Hin Hfile. cbn [run]. rewrite (turn_choice t _ _ Hin).
  unfold act, read_data_printing. cbn [String.eqb Ascii.eqb Bool.eqb]. shell.
  by rewrite (read_data_missing_file _ Hfile).
Qed.

(** X22. When read_data succeeds, choice 1 prints 'Loaded Data:' and then one
    line per loaded record, in order, and the loop goes on with the loaded
    store. *)
Theorem choice_1_prints_loaded (t : Session) (rest : list string) (s' : Store) :
  stdin t = "1" :: rest →
  read_data (data_manager t) = (Ok tt, s') →
  turn t = (Value true,
            mkSession s' rest
              (stdout t ++ asked ++
               Print "Loaded Data:" ::
               map (λ item, Print (record_line item)) (data (self s')))).
Proof.
  intros Hin Hload. rewrite (turn_choice t _ _ Hin).
  unfold act, read_data_printing, print_data. cbn [String.eqb Ascii.eqb Bool.eqb]. shell.
  rewrite Hload. shell. unfold get_data. shell.
  rewrite print_records_run. told.
Qed.

(** *** A whole session *)

(** X24. In the session add a record (choice 2), filter on calories (choice
    6), quit (choice 7), the lines after Filtered Data: are those of the
    records held before the addition whose calories equal the typed text; the
    record just added is not among the records listed, whatever value is
    typed. run returns with the record stored and the rest of the input
    unread. *)
Theorem session_add_filter_quit (fuel : nat) (s : Store)
    (name c p b value : string) (x y z : float) (rest : list string) :
  float_of_str c = Some x → float_of_str p = Some y → float_of_str b = Some z →
  run (3 + fuel)
      (mkSession s ("2" :: name :: c :: p :: b :: "6" :: "calories" :: value :: "7" :: rest) [])
  = (Returned,
     mkSession (add_data (PStr name) (PFloat x) (PFloat y) (PFloat z) s).2 rest
       (asked ++
        [Prompt "Enter Food Item: "; Prompt "Enter Calories: ";
         Prompt "Enter Protein: "; Prompt "Enter Carbs: ";
         Print "Data added successfully."] ++
        asked ++
        [Prompt "Enter the field for filtering (food_item, calories, protein, carbs): ";
         Prompt "Enter the value to filter by calories: ";
         Print "Filtered Data:"] ++
        map (λ item, Print (record_line item))
            (List.filter (λ item, py_eq (calories item) (PStr value)) (data (self s))) ++
        asked ++
        [Print "Exiting the application. Goodbye!"])).
Proof.
  intros Hc Hp Hb.
  cbn [Nat.add run].
  match goal with |- context [turn ?t] => rewrite (turn_choice t "2" _ eq_refl) end.
  unfold act at 1. cbn [String.eqb Ascii.eqb Bool.eqb]. shell.
  rewrite Hc. shell. rewrite Hp. shell. rewrite Hb. shell.
  rewrite add_data_run, save_data_run. cbn [fst snd]. shell.
  match goal with |- context [turn ?t] => rewrite (turn_choice t "6" _ eq_refl) end.
  unfold act at 1. cbn [String.eqb Ascii.eqb Bool.eqb]. shell.
  rewrite filter_data_run, (matching_attribute "calories" calories)
    by (unfold attributes; rewrite !elem_of_cons; tauto).
  cbn [self data]. rewrite List.filter_app. cbn [List.filter calories py_eq].
  rewrite app_nil_r. shell.
  rewrite print_records_run. unfold wrote. cbn [map data_manager stdin stdout].
  match goal with |- context [turn ?t] => rewrite (turn_choice t "7" _ eq_refl) end.
  unfold act at 1. cbn [String.eqb Ascii.eqb Bool.eqb]. shell.
  unfold asked. cbn [app]. rewrite <- !app_assoc. reflexivity.
Qed.

(** *** Leaving the loop *)

Lemma goes_on_bind {A} (m : Sh A) (k : A → Sh bool) :
  (∀ a, goes_on (k a)) → goes_on (m ≫= k).
Proof.
  intros Hk t. unfold mbind, Sh_bind.
  destruct (m t) as [[a|e|] t1]; [apply Hk|done..].
Qed.

Lemma goes_on_true : goes_on (mret true).
Proof. by intros t. Qed.

(** Only choice 7 is the [break]. *)
Lemma act_break (choice : string) (t : Session) :
  (act choice t).1 = Value false → choice = "7".
Proof.
  destruct (decide (choice = "7")) as [|Hne]; [done|]. intros Hact.
  assert (goes_on (act choice)) as Hgo; [|by destruct (Hgo t)].
  unfold act. rewrite (proj2 (String.eqb_neq choice "7")) by done.
  repeat (destruct (String.eqb choice _));
    repeat (apply goes_on_bind; intros); apply goes_on_true.
Qed.

(** X25. run returns normally only if a line '7' is among the input lines:
    every other way out of the loop is an uncaught exception or the end of the
    input. *)
Theorem run_returns_after_7 (fuel : nat) (t : Session) :
  (run fuel t).1 = Returned → "7" ∈ stdin t.
Proof.
  revert t. induction fuel as [|fuel IH]; intros t; [done|].
  cbn [run]. destruct (stdin t) as [|choice rest] eqn:Hin.
  - by rewrite (turn_end_of_input t Hin).
  - rewrite (turn_choice t choice rest Hin).
    match goal with |- context [act _ ?t0] =>
      pose proof (tame_act choice t0) as Hle;
      pose proof (act_break choice t0) as Hbreak
    end.
    destruct (act choice _) as [[[|]|e|] t']; cbn [fst snd stdin] in *; [| |done..].
    + intros Hret. apply IH in Hret. destruct Hle as [k ->].
      rewrite elem_of_cons, elem_of_app. auto.
    + intros _. rewrite Hbreak by done. left.
Qed.

(** *** A turn that is cut short *)

Lemma answers_ret {A} (a : A) : answers (mret a).
Proof. by intros t. Qed.

Lemma answers_print (line : string) : answers (print line).
Proof. by intros t. Qed.

Lemma answers_method {A} (m : Py A) : answers (method m).
Proof. intros t. unfold method. by destruct (m _) as [[a|e] s]. Qed.

Lemma answers_print_records (items : list FoodData) : answers (print_records items).
Proof. intros t. by rewrite print_records_run. Qed.

Lemma answers_bind {A B} (m : Sh A) (k : A → Sh B) :
  answers m → (∀ a, answers (k a)) → answers (m ≫= k).
Proof.
  intros Hm Hk t. unfold mbind, Sh_bind. specialize (Hm t).
  destruct (m t) as [[a|e|] t1]; [apply Hk|done..].
Qed.

Lemma cut_short_answers {A} (m : Sh A) : answers m → cut_short_keeps m.
Proof. intros Hm t Hend. by destruct (Hm t). Qed.

(** What is read before the store is called keeps the store, whatever the
    store's method does afterwards. *)
Lemma cut_short_bind {A B} (m : Sh A) (k : A → Sh B) :
  (∀ P, preserves P m) → (∀ a, cut_short_keeps (k a)) → cut_short_keeps (m ≫= k).
Proof.
  intros Hm Hk t. unfold mbind, Sh_bind.
  pose proof (Hm (eq (data_manager t)) t eq_refl) as Hkeep.
  destruct (m t) as [[a|e|] t1]; cbn [fst snd] in *; [|done..].
  intros Hend. by rewrite (Hk a t1 Hend).
Qed.

Lemma cut_short_act (choice : string) : cut_short_keeps (act choice).
Proof.
  unfold act, read_data_printing, print_data.
  repeat (destruct (String.eqb choice _));
    repeat (apply cut_short_bind; [solve [intros; auto with preserves]|intros]);
    apply cut_short_answers;
    repeat first [ apply answers_ret | apply answers_print | apply answers_method
                 | apply answers_print_records | apply answers_bind; intros ].
Qed.

(** X23. A turn that ends because the input has run out, at the choice prompt
    or at any later prompt of the choice, has changed nothing: the store and
    the files are as they were before the turn, since every choice reads all
    its lines before it calls the store. The same holds for the turn that
    quits. *)
Theorem turn_cut_short (t : Session) :
  (turn t).1 = EOFError ∨ (turn t).1 = Value false →
  data_manager (turn t).2 = data_manager t.
Proof.
  destruct (stdin t) as [|choice rest] eqn:Hin.
  - by rewrite (turn_end_of_input t Hin).
  - rewrite (turn_choice t choice rest Hin).
    intros [Hend|Hbreak].
    + by rewrite (cut_short_act choice _ Hend).
    + apply act_break in Hbreak as ->. reflexivity.
Qed.

(** X26. When the input is exhausted at the choice prompt, run ends with
    EOFError after printing the menu and the prompt, and the store is
    unchanged. *)
Theorem run_end_of_input (fuel : nat) (t : Session) :
  stdin t = [] →
  run (S fuel) t = (RaisedEOFError, mkSession (data_manager t) [] (stdout t ++ asked)).
Proof. intros Hin. cbn [run]. by rewrite (turn_end_of_input t Hin). Qed.

(** X27. Choice 2 with a calories line that float() rejects ends the whole run
    with an uncaught ValueError right after the calories prompt: nothing is
    added and the store is unchanged. *)
Theorem choice_2_bad_number (fuel : nat) (t : Session) (name c : string)
    (rest : list string) :
  stdin t = "2" :: name :: c :: rest →
  float_of_str c = None →
  run (S fuel) t
  = (Raised ValueError,
     mkSession (data_manager t) rest
       (stdout t ++ asked ++ [Prompt "Enter Food Item: "; Prompt "Enter Calories: "])).
Proof.
  intros Hin Hc. cbn [run]. rewrite (turn_choice t _ _ Hin).
  unfold act. cbn [String.eqb Ascii.eqb Bool.eqb]. shell.
  rewrite Hc. told.
Qed.

(** *** The program from its start *)

(** X28. In a process where no DataManager exists yet, the program starts with
    no records, and taking choice 2 first (before any load) leaves the store
    with that single record and rewrites food_nutrition.csv to the header and
    that record, whatever the file held before. *)
Theorem add_before_load_overwrites (w : World) (name c p b : string)
    (x y z : float) (rest : list string) :
  _instance w = None →
  float_of_str c = Some x → float_of_str p = Some y → float_of_str b = Some z →
  let item := mkFoodData (PStr name) (PFloat x) (PFloat y) (PFloat z) in
  ∃ t0, start w ("2" :: name :: c :: p :: b :: rest) = Some t0 ∧
    (turn t0).1 = Value true ∧
    data (self (data_manager (turn t0).2)) = [item] ∧
    disk (data_manager (turn t0).2) = <["food_nutrition.csv" := table [item]]> (files w).
Proof.
  intros Hw Hc Hp Hb item. unfold start, DataManager_new, attrs. rewrite Hw.
  cbn [heap files]. rewrite list_lookup_middle by done. cbn [mbind option_bind].
  eexists. split; [reflexivity|].
  match goal with |- context [turn ?t] => rewrite (turn_choice t "2" _ eq_refl) end.
  unfold act. cbn [String.eqb Ascii.eqb Bool.eqb]. shell.
  rewrite Hc. shell. rewrite Hp. shell. rewrite Hb. shell.
  rewrite add_data_run, save_data_run. by cbn.
Qed.

End Facts.

(** ** Closed sessions

    The statements above at sessions of the demo runtime and console. *)

#[local] Existing Instance Demo.runtime.
#[local] Existing Instance DemoShell.console.

Import DemoShell.

Lemma run_ends_witness :
  (run 3 (at_pantry ["9"; "7"])).1 ≠ OutOfFuel ∧
  ∀ more, run (3 + more) (at_pantry ["9"; "7"]) = run 3 (at_pantry ["9"; "7"]).
Proof. apply (run_ends 3 (at_pantry ["9"; "7"])). simpl. lia. Defined.

Lemma run_returns_after_7_witness :
  (run 2 (at_pantry ["9"; "7"])).1 = Returned ∧ "7" ∈ ["9"; "7"].
Proof.
  assert (H : (run 2 (at_pantry ["9"; "7"])).1 = Returned) by reflexivity.
  split; [exact H|].
  exact (run_returns_after_7 2 (at_pantry ["9"; "7"]) H).
Defined.

Lemma run_end_of_input_witness :
  run 1 (at_pantry []) = (RaisedEOFError, mkSession pantry [] asked).
Proof. exact (run_end_of_input 0 (at_pantry []) eq_refl). Defined.

Lemma turn_keeps_store_witness :
  data_manager (turn (at_pantry ["5"; "weight"])).2 = pantry.
Proof.
  apply (turn_keeps_store (at_pantry ["5"; "weight"])).
  intros choice [= <-] Hin.
  repeat (apply elem_of_cons in Hin as [Hin|Hin]; [discriminate Hin|]).
  by apply elem_of_nil in Hin.
Defined.

Lemma turn_keeps_entered_witness :
  all_entered pantry ∧
  all_entered (data_manager (turn (at_pantry ["3"; "0"; "Apple"; "95"; "0.5"; "25"])).2).
Proof.
  assert (H : all_entered pantry)
    by (repeat constructor; repeat eexists).
  split; [exact H|].
  apply (turn_keeps_entered (at_pantry ["3"; "0"; "Apple"; "95"; "0.5"; "25"])); [|exact H].
  discriminate.
Defined.

Lemma turn_cut_short_witness :
  (turn (at_pantry ["3"; "0"; "Apple"])).1 = EOFError ∧
  data_manager (turn (at_pantry ["3"; "0"; "Apple"])).2 = pantry.
Proof.
  assert (H : (turn (at_pantry ["3"; "0"; "Apple"])).1 = EOFError) by (by vm_compute).
  split; [exact H|].
  exact (turn_cut_short (at_pantry ["3"; "0"; "Apple"]) (or_introl H)).
Defined.

Lemma choice_7_returns_witness :
  run 1 (at_pantry ["7"; "2"])
  = (Returned, mkSession pantry ["2"] (asked ++ [Print "Exiting the application. Goodbye!"])).
Proof. exact (choice_7_returns 0 (at_pantry ["7"; "2"]) ["2"] eq_refl). Defined.

Lemma invalid_choice_goes_on_witness :
  turn (at_pantry ["8"; "7"])
  = (Value true,
     mkSession pantry ["7"] (asked ++ [Print "Invalid choice. Please try again."])).
Proof.
  apply (invalid_choice_goes_on (at_pantry ["8"; "7"]) "8" ["7"] eq_refl).
  intros Hin.
  repeat (apply elem_of_cons in Hin as [Hin|Hin]; [discriminate Hin|]).
  by apply elem_of_nil in Hin.
Defined.

Lemma choice_2_adds_witness :
  (turn (at_pantry ["2"; "Apple"; "95"; "0.5"; "25"])).1 = Value true ∧
  data (self (data_manager (turn (at_pantry ["2"; "Apple"; "95"; "0.5"; "25"])).2))
  = [pear; rice; bread; apple].
Proof.
  pose proof (choice_2_adds (at_pantry ["2"; "Apple"; "95"; "0.5"; "25"])
                "Apple" "95" "0.5" "25" [] 95 0.5 25 eq_refl eq_refl eq_refl eq_refl) as H.
  rewrite H. split; reflexivity.
Defined.

Lemma choice_2_bad_number_witness :
  run 1 (at_pantry ["2"; "Apple"; "many"])
  = (Raised ValueError,
     mkSession pantry [] (asked ++ [Prompt "Enter Food Item: "; Prompt "Enter Calories: "])).
Proof.
  exact (choice_2_bad_number 0 (at_pantry ["2"; "Apple"; "many"]) "Apple" "many" []
           eq_refl eq_refl).
Defined.

Lemma choice_3_out_of_range_witness :
  turn (at_pantry ["3"; "-1"; "Apple"; "95"; "0.5"; "25"])
  = (Value true,
     mkSession pantry []
       (asked ++
        [Prompt "Enter the index to edit: "; Prompt "Enter Food Item: ";
         Prompt "Enter Calories: "; Prompt "Enter Protein: ";
         Prompt "Enter Carbs: "; Print "Data edited successfully."])).
Proof.
  apply (choice_3_out_of_range (RT := Demo.runtime) (CS := console) (at_pantry ["3"; "-1"; "Apple"; "95"; "0.5"; "25"])
           "-1" "Apple" "95" "0.5" "25" (-1) 95 0.5 25 [] eq_refl eq_refl eq_refl eq_refl eq_refl).
  simpl. lia.
Defined.

Lemma choice_4_out_of_range_witness :
  turn (at_pantry ["4"; "3"])
  = (Value true,
     mkSession pantry []
       (asked ++ [Prompt "Enter the index to delete: "; Print "Data deleted successfully."])).
Proof.
  apply (choice_4_out_of_range (RT := Demo.runtime) (CS := console) (at_pantry ["4"; "3"]) "3" 3 [] eq_refl eq_refl).
  simpl. lia.
Defined.

Lemma choice_5_on_empty_store_witness :
  run 1 (at_empty ["5"; "calories"])
  = (Raised StatisticsError,
     mkSession (data_manager (at_empty [])) []
       (asked ++ [Prompt "Enter the field for analysis (calories, protein, carbs): "])).
Proof.
  exact (choice_5_on_empty_store 0 (at_empty ["5"; "calories"]) "calories" [] eq_refl eq_refl).
Defined.

Lemma choice_5_prints_statistics_witness :
  turn (at_loaded ["5"; "calories"])
  = (Value true,
     mkSession pantry_loaded []
       (asked ++
        [Prompt "Enter the field for analysis (calories, protein, carbs): ";
         Print ("Mean calories: " +:+
                Demo.float_repr (Demo.mean_of [100%float; 200%float; 200%float]));
         Print "Median calories: 200.0"])).
Proof.
  assert (Hfield : ("calories", calories) ∈ attributes)
    by (unfold attributes; rewrite !elem_of_cons; tauto).
  assert (Hdata : data (self pantry_loaded) ≠ []) by discriminate.
  assert (Hall : Forall2 (λ item x, py_float (Plain (calories item)) = Ok x)
                   (data (self pantry_loaded)) [100%float; 200%float; 200%float])
    by (repeat (constructor; [by vm_compute|]); constructor).
  exact (choice_5_prints_statistics (at_loaded ["5"; "calories"]) "calories" calories
           [100%float; 200%float; 200%float] [] eq_refl Hfield
           Hdata Hall).
Defined.

Lemma choice_6_lists_matches_witness :
  turn (at_pantry ["6"; "food_item"; "Rice"])
  = (Value true,
     mkSession pantry []
       (asked ++
        [Prompt "Enter the field for filtering (food_item, calories, protein, carbs): ";
         Prompt "Enter the value to filter by food_item: ";
         Print "Filtered Data:"; Print "Rice, 200.0, 4.0, 45.0"])).
Proof.
  assert (Hfield : ("food_item", food_item) ∈ attributes)
    by (unfold attributes; rewrite !elem_of_cons; tauto).
  exact (choice_6_lists_matches (at_pantry ["6"; "food_item"; "Rice"]) "food_item" "Rice"
           food_item [] eq_refl Hfield).
Defined.

Lemma choice_6_finds_no_number_witness :
  turn (at_pantry ["6"; "calories"; "200.0"])
  = (Value true,
     mkSession pantry []
       (asked ++
        [Prompt "Enter the field for filtering (food_item, calories, protein, carbs): ";
         Prompt "Enter the value to filter by calories: ";
         Print "Filtered Data:"])).
Proof.
  assert (Hfield : ("calories", calories) ∈ attributes)
    by (unfold attributes; rewrite !elem_of_cons; tauto).
  assert (Hfloats : Forall (λ item, ∃ x, calories item = PFloat x) (data (self pantry)))
    by (repeat constructor; eexists; reflexivity).
  exact (choice_6_finds_no_number (at_pantry ["6"; "calories"; "200.0"]) "calories" "200.0"
           calories [] eq_refl Hfield Hfloats).
Defined.

Lemma choice_1_without_file_witness :
  run 1 (at_pantry ["1"; "7"]) = (Raised FileNotFoundError, mkSession pantry ["7"] asked).
Proof. exact (choice_1_without_file 0 (at_pantry ["1"; "7"]) ["7"] eq_refl eq_refl). Defined.

Lemma choice_1_prints_loaded_witness :
  turn (mkSession unloaded ["1"] [])
  = (Value true,
     mkSession (mkStore (self pantry_loaded) (disk unloaded)) []
       (asked ++
        [Print "Loaded Data:"; Print "Pear, 100.0, 0.5, 27.0";
         Print "Rice, 200.0, 4.0, 45.0"; Print "Bread, 200.0, 8.0, 40.0"])).
Proof.
  assert (Hload : read_data unloaded = (Ok tt, mkStore (self pantry_loaded) (disk unloaded)))
    by (by vm_compute).
  exact (choice_1_prints_loaded (mkSession unloaded ["1"] []) [] _ eq_refl Hload).
Defined.

Lemma session_add_filter_quit_witness :
  run 3 (at_loaded ["2"; "Corn"; "200"; "3.5"; "41"; "6"; "calories"; "200.0"; "7"])
  = (Returned,
     mkSession (add_data (PStr "Corn") (PFloat 200) (PFloat 3.5) (PFloat 41)
                         pantry_loaded).2 []
       (asked ++
        [Prompt "Enter Food Item: "; Prompt "Enter Calories: ";
         Prompt "Enter Protein: "; Prompt "Enter Carbs: ";
         Print "Data added successfully."] ++
        asked ++
        [Prompt "Enter the field for filtering (food_item, calories, protein, carbs): ";
         Prompt "Enter the value to filter by calories: ";
         Print "Filtered Data:";
         Print "Rice, 200.0, 4.0, 45.0"; Print "Bread, 200.0, 8.0, 40.0"] ++
        asked ++
        [Print "Exiting the application. Goodbye!"])).
Proof.
  exact (session_add_filter_quit 0 pantry_loaded
           "Corn" "200" "3.5" "41" "200.0" 200 3.5 41 []
           eq_refl eq_refl eq_refl).
Defined.

Lemma add_before_load_overwrites_witness :
  disk unloaded !! "food_nutrition.csv" ≠ None ∧
  ∃ t0, start fresh ["2"; "Apple"; "95"; "0.5"; "25"] = Some t0 ∧
    (turn t0).1 = Value true ∧
    data (self (data_manager (turn t0).2)) = [apple] ∧
    disk (data_manager (turn t0).2) = <["food_nutrition.csv" := table [apple]]> (files fresh).
Proof.
  split; [discriminate|].
  exact (add_before_load_overwrites fresh "Apple" "95" "0.5" "25" 95 0.5 25 []
           eq_refl eq_refl eq_refl eq_refl).
Defined.
End ApplicationFacts.
